(** * Smart Study Planner: credential store, task store and status reconciler

    A shallow embedding of [src/smart_study_planner.py], [src/auth.py] and
    [src/db.py].  The SQLite file [tasks.db] is a record of two tables, each a
    list of rows in rowid order together with its AUTOINCREMENT counter.
    Every SQL statement of the sources is one function on that record, and
    every Python function is the composition of the statements it executes on
    a connection that separates the committed image from the working one.

    Calendar dates reach SQLite as ISO-8601 text (the adapter that the
    [sqlite3] module registers for [datetime.date]), and the comparison
    [due_date < ?] of the reconciler is SQLite's byte-wise TEXT comparison:
    the first part of the file relates that order to the calendar. *)

From Stdlib Require Import ZArith List String Ascii Bool Lia DecimalString.
Import ListNotations.

Local Open Scope Z_scope.

(* ================================================================== *)
(** ** [datetime.date] and its text rendering *)

Module Date.

Record date : Type := mk { year : Z; month : Z; day : Z }.

Definition is_leap (y : Z) : bool :=
  ((y mod 4 =? 0) && negb (y mod 100 =? 0)) || (y mod 400 =? 0).

Definition days_in_month (y m : Z) : Z :=
  if m =? 2 then (if is_leap y then 29 else 28)
  else if (m =? 4) || (m =? 6) || (m =? 9) || (m =? 11) then 30
  else 31.

(** The values a [datetime.date] can hold: MINYEAR = 1, MAXYEAR = 9999. *)
Definition valid (d : date) : bool :=
  (1 <=? year d) && (year d <=? 9999) &&
  (1 <=? month d) && (month d <=? 12) &&
  (1 <=? day d) && (day d <=? days_in_month (year d) (month d)).

(** Calendar order. *)
Definition compare (a b : date) : comparison :=
  match year a ?= year b with
  | Eq => match month a ?= month b with
          | Eq => day a ?= day b
          | c => c
          end
  | c => c
  end.

Definition ltb (a b : date) : bool :=
  match compare a b with Lt => true | _ => false end.

(** [d - timedelta(days=1)]; [None] is the OverflowError that Python
    raises below [date.min]. *)
Definition yesterday (d : date) : option date :=
  if 1 <? day d then Some (mk (year d) (month d) (day d - 1))
  else if 1 <? month d
       then Some (mk (year d) (month d - 1)
                     (days_in_month (year d) (month d - 1)))
  else if 1 <? year d then Some (mk (year d - 1) 12 31)
  else None.

(** One decimal digit as its ASCII character. *)
Definition digit (n : Z) : ascii :=
  ascii_of_N (48 + Z.to_N (n mod 10)).

(** ["%02d"] and ["%04d"] on the ranges that a valid date uses. *)
Definition zfill2 (n : Z) : string :=
  String (digit (n / 10)) (String (digit n) EmptyString).

Definition zfill4 (n : Z) : string :=
  (zfill2 (n / 100) ++ zfill2 (n mod 100))%string.

(** [date.isoformat()], which is also the value bound to a [?] parameter
    when a [date] is passed to [cursor.execute]. *)
Definition isoformat (d : date) : string :=
  (zfill4 (year d) ++ "-" ++ zfill2 (month d) ++ "-" ++ zfill2 (day d))%string.

(** The field ranges on which the rendering has its fixed width. *)
Definition fixed_width (d : date) : Prop :=
  0 <= year d < 10000 /\ 0 <= month d < 100 /\ 0 <= day d < 100.

End Date.

(* ================================================================== *)
(** ** The two tables of [tasks.db] *)

Module Users.

(** [users(id, username, email, password)]; the password column holds the
    bcrypt hash. *)
Record row : Type :=
  mk { id : Z; username : string; email : string; password : string }.

End Users.

Module Tasks.

(** [tasks(id, user_id, task, due_date, priority, status)]; [due_date] is
    the only column that the application leaves NULL (rows that predate
    the ALTER TABLE upgrade). *)
Record row : Type :=
  mk { id : Z; user_id : Z; task : string;
       due_date : option string; priority : string; status : string }.

Definition set_status (s : string) (r : row) : row :=
  mk (id r) (user_id r) (task r) (due_date r) (priority r) s.

End Tasks.

(* ================================================================== *)
(** ** SQLite: database image, statements, connections *)

Module Sql.

Record db : Type :=
  mk_db { users : list Users.row; users_seq : Z;
          tasks : list Tasks.row; tasks_seq : Z }.

Definition empty : db := mk_db [] 0 [] 0.

(** The UNIQUE constraints of a [users] table: [src/db.py] and
    [src/smart_study_planner.py] declare different ones. *)
Record users_schema : Type :=
  mk_schema { unique_username : bool; unique_email : bool }.

(** INTEGER PRIMARY KEY AUTOINCREMENT: one more than the largest rowid
    ever used.  Rowids are taken unbounded (the 2^63 limit is out of the
    model). *)
Definition max_rowid (ids : list Z) : Z := fold_right Z.max 0 ids.

Definition next_rowid (ids : list Z) (seq : Z) : Z :=
  Z.max (max_rowid ids) seq + 1.

(** Three-valued logic of a WHERE clause: [None] is NULL. *)
Definition and3 (a b : option bool) : option bool :=
  match a, b with
  | Some false, _ => Some false
  | _, Some false => Some false
  | Some true, Some true => Some true
  | _, _ => None
  end.

(** [column < ?] on a TEXT value (BINARY collation), NULL when the column
    is NULL. *)
Definition lt_text (a : option string) (b : string) : option bool :=
  match a with
  | Some s => Some (String.ltb s b)
  | None => None
  end.

(** A row is selected only when the WHERE clause is TRUE. *)
Definition selected (v : option bool) : bool :=
  match v with Some true => true | _ => false end.

(** [SELECT * FROM users WHERE email=?] *)
Definition select_users_by_email (e : string) (d : db) : list Users.row :=
  filter (fun r => String.eqb (Users.email r) e) (users d).

Definition fetchone {A : Type} (rows : list A) : option A := hd_error rows.

(** [INSERT INTO users (username, email, password) VALUES (?, ?, ?)]:
    the row it appends, and the statement, where [None] is
    [sqlite3.IntegrityError] and leaves the image as it was. *)
Definition append_user (username email password : string) (d : db) : db :=
  let i := next_rowid (map Users.id (users d)) (users_seq d) in
  mk_db (users d ++ [Users.mk i username email password]) i
        (tasks d) (tasks_seq d).

Definition insert_user (sch : users_schema)
    (username email password : string) (d : db) : option db :=
  if (unique_email sch &&
      existsb (fun r => String.eqb (Users.email r) email) (users d))
     || (unique_username sch &&
         existsb (fun r => String.eqb (Users.username r) username) (users d))
  then None
  else Some (append_user username email password d).

(** [UPDATE tasks SET status='Overdue'
     WHERE user_id=? AND status='Pending' AND due_date < ?] *)
Definition overdue_where (user_id : Z) (today : string) (r : Tasks.row)
  : option bool :=
  and3 (and3 (Some (Tasks.user_id r =? user_id))
             (Some (String.eqb (Tasks.status r) "Pending")))
       (lt_text (Tasks.due_date r) today).

Definition set_overdue (user_id : Z) (today : string) (r : Tasks.row)
  : Tasks.row :=
  if selected (overdue_where user_id today r)
  then Tasks.set_status "Overdue" r else r.

Definition update_overdue (user_id : Z) (today : string) (d : db) : db :=
  mk_db (users d) (users_seq d)
        (map (set_overdue user_id today) (tasks d))
        (tasks_seq d).

(** "Due strictly before [today]", as the stored text decides it. *)
Definition due_before (r : Tasks.row) (today : string) : Prop :=
  exists s, Tasks.due_date r = Some s /\ String.ltb s today = true.

(** [UPDATE tasks SET status=? WHERE id=? AND user_id=?] *)
Definition owned_row (id user_id : Z) (r : Tasks.row) : bool :=
  (Tasks.id r =? id) && (Tasks.user_id r =? user_id).

Definition set_status_where (s : string) (id user_id : Z) (r : Tasks.row)
  : Tasks.row :=
  if owned_row id user_id r then Tasks.set_status s r else r.

Definition update_status (s : string) (id user_id : Z) (d : db) : db :=
  mk_db (users d) (users_seq d)
        (map (set_status_where s id user_id) (tasks d))
        (tasks_seq d).

(** [DELETE FROM tasks WHERE id=? AND user_id=?] *)
Definition delete_task (id user_id : Z) (d : db) : db :=
  mk_db (users d) (users_seq d)
        (filter (fun r => negb (owned_row id user_id r)) (tasks d))
        (tasks_seq d).

(** [INSERT INTO tasks (user_id, task, due_date, priority, status)
     VALUES (?, ?, ?, ?, ?)] *)
Definition insert_task (user_id : Z) (task : string)
    (due_date : option string) (priority status : string) (d : db) : db :=
  let i := next_rowid (map Tasks.id (tasks d)) (tasks_seq d) in
  mk_db (users d) (users_seq d)
        (tasks d ++ [Tasks.mk i user_id task due_date priority status]) i.

(** [SELECT * FROM tasks WHERE user_id=?] *)
Definition select_tasks_by_user (user_id : Z) (d : db) : list Tasks.row :=
  filter (fun r => Tasks.user_id r =? user_id) (tasks d).

(** The row whose PRIMARY KEY is [i]. *)
Definition find_task (i : Z) (d : db) : option Tasks.row :=
  find (fun r => Tasks.id r =? i) (tasks d).

(** Constraints that the schemas keep. *)
Definition primary_key (d : db) : Prop := NoDup (map Tasks.id (tasks d)).

Definition email_unique (d : db) : Prop := NoDup (map Users.email (users d)).

Definition username_unique (d : db) : Prop :=
  NoDup (map Users.username (users d)).

(** A connection: statements act on [working]; [commit] publishes it; a
    connection that is closed (or dropped) loses what was not committed. *)
Record connection : Type := mk_conn { committed : db; working : db }.

Definition connect (d : db) : connection := mk_conn d d.

Definition execute (stmt : db -> db) (c : connection) : connection :=
  mk_conn (committed c) (stmt (working c)).

Definition try_execute (stmt : db -> option db) (c : connection)
  : option connection :=
  match stmt (working c) with
  | Some w => Some (mk_conn (committed c) w)
  | None => None
  end.

Definition commit (c : connection) : connection :=
  mk_conn (working c) (working c).

Definition close (c : connection) : db := committed c.

End Sql.

(* ================================================================== *)
(** ** bcrypt, an opaque collaborator *)

Class Bcrypt : Type :=
  { hashpw : string -> string -> string;   (* password, salt *)
    checkpw : string -> string -> bool }.  (* password, stored hash *)

(** What a Python call does: return a value or raise. *)
Inductive outcome (A : Type) : Type :=
| Returned (a : A)
| IntegrityError.

Arguments Returned {A} a.
Arguments IntegrityError {A}.

(* ================================================================== *)
(** ** [src/db.py] *)

Module Db.

Definition get_db_connection : Sql.db -> Sql.connection := Sql.connect.

(** [create_tables]: username TEXT UNIQUE NOT NULL, email TEXT UNIQUE
    NOT NULL. *)
Definition users_schema : Sql.users_schema := Sql.mk_schema true true.

End Db.

(* ================================================================== *)
(** ** [src/auth.py] *)

Module Auth.
Section WithBcrypt.
Context `{Bcrypt}.

(** [salt] is the value drawn by [bcrypt.gensalt()]. *)
Definition register_user (username email password salt : string)
    (d : Sql.db) : bool * Sql.db :=
  let conn := Db.get_db_connection d in
  let hashed := hashpw password salt in
  match Sql.try_execute
          (Sql.insert_user Db.users_schema username email hashed) conn with
  | Some conn' => (true, Sql.close (Sql.commit conn'))
  | None => (false, Sql.close conn)
  end.

Definition login_user (email password : string) (d : Sql.db)
  : option Users.row * Sql.db :=
  let conn := Db.get_db_connection d in
  let user :=
    Sql.fetchone (Sql.select_users_by_email email (Sql.working conn)) in
  let d' := Sql.close conn in
  match user with
  | Some u => if checkpw password (Users.password u)
              then (Some u, d') else (None, d')
  | None => (None, d')
  end.

End WithBcrypt.
End Auth.

(* ================================================================== *)
(** ** [src/smart_study_planner.py] *)

Module Planner.

Definition get_db_connection : Sql.db -> Sql.connection := Sql.connect.

(** [create_tables]: username TEXT NOT NULL, email TEXT UNIQUE NOT NULL. *)
Definition users_schema : Sql.users_schema := Sql.mk_schema false true.

Section WithBcrypt.
Context `{Bcrypt}.

(** The INSERT is not wrapped in a [try]: an integrity error would
    propagate to the caller. *)
Definition register_user (username email password salt : string)
    (d : Sql.db) : outcome bool * Sql.db :=
  let conn := get_db_connection d in
  match Sql.fetchone (Sql.select_users_by_email email (Sql.working conn)) with
  | Some _ => (Returned false, Sql.close conn)
  | None =>
      let hashed := hashpw password salt in
      match Sql.try_execute
              (Sql.insert_user users_schema username email hashed) conn with
      | Some conn' => (Returned true, Sql.close (Sql.commit conn'))
      | None => (IntegrityError, Sql.close conn)
      end
  end.

Definition login_user (email password : string) (d : Sql.db)
  : option (Z * string * string) * Sql.db :=
  let conn := get_db_connection d in
  let user := Sql.fetchone (Sql.select_users_by_email email (Sql.working conn)) in
  let d' := Sql.close conn in
  match user with
  | Some u => if checkpw password (Users.password u)
              then (Some (Users.id u, Users.username u, Users.email u), d')
              else (None, d')
  | None => (None, d')
  end.

End WithBcrypt.

(** [today] stands for the value of [date.today()] at the call. *)
Definition update_overdue_tasks (user_id : Z) (today : Date.date)
    (d : Sql.db) : Sql.db :=
  let conn := get_db_connection d in
  let conn := Sql.execute
                (Sql.update_overdue user_id (Date.isoformat today)) conn in
  Sql.close (Sql.commit conn).

(** The two buttons of a displayed row, by their widget keys
    [comp_<id>] and [del_<id>]. *)
Inductive button : Type :=
| comp (id : Z)
| del (id : Z).

Definition button_eqb (a b : button) : bool :=
  match a, b with
  | comp i, comp j => i =? j
  | del i, del j => i =? j
  | _, _ => false
  end.

(** [pressed] is the button whose click started this run of the script,
    if any; a widget call returns True for that button only. *)
Definition clicked (pressed : option button) (key : button) : bool :=
  match pressed with
  | Some b => button_eqb b key
  | None => false
  end.

(** The loop of [display_tasks]: the first clicked button executes its
    statement, commits, and [st.rerun()] leaves the function. *)
Fixpoint display_rows (df : list Tasks.row) (user_id : Z)
    (pressed : option button) (conn : Sql.connection) : Sql.connection :=
  match df with
  | [] => conn
  | row :: rest =>
      if negb (String.eqb (Tasks.status row) "Completed")
         && clicked pressed (comp (Tasks.id row))
      then Sql.commit
             (Sql.execute
                (Sql.update_status "Completed" (Tasks.id row) user_id) conn)
      else if clicked pressed (del (Tasks.id row))
      then Sql.commit
             (Sql.execute (Sql.delete_task (Tasks.id row) user_id) conn)
      else display_rows rest user_id pressed conn
  end.

Definition display_tasks (df : list Tasks.row) (user_id : Z)
    (pressed : option button) (d : Sql.db) : Sql.db :=
  Sql.close (display_rows df user_id pressed (get_db_connection d)).

(** The "Add Task" button block; [due_date] is the [date] returned by
    [st.date_input]. *)
Definition add_task (user_id : Z) (task : string) (due_date : Date.date)
    (priority : string) (d : Sql.db) : Sql.db :=
  let conn := get_db_connection d in
  let conn := Sql.execute
                (Sql.insert_task user_id task
                   (Some (Date.isoformat due_date)) priority "Pending")
                conn in
  Sql.close (Sql.commit conn).

(** The task fetch of the main page, with the fetched values under the
    names of their columns: the rows of [df] on a [tasks] table in the
    column order that [create_tables] declares, where the labels of the
    page and the columns coincide ([Frame.data_frame] is [df] on either
    column order). *)
Definition fetch_tasks (user_id : Z) (d : Sql.db) : list Tasks.row :=
  let conn := get_db_connection d in
  Sql.select_tasks_by_user user_id (Sql.working conn).

Definition columns : list string :=
  ["id"; "user_id"; "task"; "due_date"; "priority"; "status"]%string.

Section WithPandas.
(** [pd.to_datetime(_, errors='coerce')] on one cell, as the text that
    [to_csv] prints for it; [None] is NaT. *)
Variable to_datetime : option string -> option string.

Definition coerce_due_date (df : list Tasks.row) : list Tasks.row :=
  map (fun r => Tasks.mk (Tasks.id r) (Tasks.user_id r) (Tasks.task r)
                         (to_datetime (Tasks.due_date r))
                         (Tasks.priority r) (Tasks.status r)) df.

(** [df if status_filter=="All" else df[df['status']==status_filter]] *)
Definition filter_status (status_filter : string) (df : list Tasks.row)
  : list Tasks.row :=
  if String.eqb status_filter "All" then df
  else filter (fun r => String.eqb (Tasks.status r) status_filter) df.

Definition str (n : Z) : string := NilZero.string_of_int (Z.to_int n).

Definition csv_record (r : Tasks.row) : list string :=
  [str (Tasks.id r); str (Tasks.user_id r); Tasks.task r;
   match Tasks.due_date r with Some s => s | None => EmptyString end;
   Tasks.priority r; Tasks.status r].

(** [df.to_csv(index=False)] as CSV records, the header first; quoting
    and line joining belong to the CSV writer. *)
Definition to_csv (df : list Tasks.row) : list (list string) :=
  columns :: map csv_record df.

(** The display step of the main page: nothing is shown, and no button
    exists, when the user has no task. *)
Definition page_display (user_id : Z) (status_filter : string)
    (pressed : option button) (d : Sql.db) : Sql.db :=
  match fetch_tasks user_id d with
  | [] => d
  | df =>
      let df := coerce_due_date df in
      let df_filtered := filter_status status_filter df in
      display_tasks df_filtered user_id pressed d
  end.

(** The export step: the CSV offered for download as [study_tasks.csv],
    [None] when the page shows "No tasks yet!" instead ([df.empty]). *)
Definition export_csv (user_id : Z) (d : Sql.db)
  : option (list (list string)) :=
  match fetch_tasks user_id d with
  | [] => None
  | df => Some (to_csv (coerce_due_date df))
  end.

End WithPandas.

(** The mutations that a session can apply to the task store. *)
Inductive action : Type :=
| Reconcile (user_id : Z) (today : Date.date)
| Display (df : list Tasks.row) (user_id : Z) (pressed : option button)
| AddTask (user_id : Z) (task : string) (due_date : Date.date)
          (priority : string).

Definition run (a : action) (d : Sql.db) : Sql.db :=
  match a with
  | Reconcile u today => update_overdue_tasks u today d
  | Display df u pressed => display_tasks df u pressed d
  | AddTask u t due p => add_task u t due p d
  end.

End Planner.

(* ================================================================== *)
(** ** Test fixtures *)

Module Fixture.

(** A stand-in for bcrypt that lets the functions run: the "hash" is the
    salt, a separator and the password. *)
Definition split_hash (h : string) : string :=
  match index 0 "$" h with
  | Some n => substring (S n) (String.length h - S n) h
  | None => h
  end.

#[local] Instance test_bcrypt : Bcrypt :=
  {| hashpw := fun pw salt => (salt ++ "$" ++ pw)%string;
     checkpw := fun pw h => String.eqb (split_hash h) pw |}.

Definition alice : Users.row :=
  Users.mk 1 "alice" "alice@x.com" "s1$secret1".

Definition one_user : Sql.db := Sql.mk_db [alice] 1 [] 0.

Definition read_chapter : Tasks.row :=
  Tasks.mk 1 1 "Read chapter 1" (Some "2024-01-01"%string) "High" "Pending".

Definition undated : Tasks.row :=
  Tasks.mk 2 1 "Someday" None "Medium" "Pending".

Definition bobs_task : Tasks.row :=
  Tasks.mk 3 2 "Write essay" (Some "2024-05-31"%string) "Low" "Pending".

Definition done_task : Tasks.row :=
  Tasks.mk 4 1 "Old homework" (Some "2023-12-01"%string) "Low" "Completed".

Definition store : Sql.db :=
  Sql.mk_db [alice] 1 [read_chapter; undated; bobs_task; done_task] 4.

Definition june_first : Date.date := Date.mk 2024 6 1.

End Fixture.

(* ================================================================== *)
(** ** Schema statements: [create_tables] and the upgrade block *)

Module Schema.

(** What the file declares: the constraints of [users], if the table
    exists, and the column names of [tasks] in table order, if it exists. *)
Record tables : Type :=
  mk { users_table : option Sql.users_schema;
       tasks_table : option (list string) }.

Definition fresh : tables := mk None None.

(** SQLite compares identifiers without regard to ASCII case. *)
Definition lower_ascii (c : ascii) : ascii :=
  let n := N_of_ascii c in
  if ((65 <=? n) && (n <=? 90))%N then ascii_of_N (n + 32) else c.

Fixpoint lower (s : string) : string :=
  match s with
  | EmptyString => EmptyString
  | String c s' => String (lower_ascii c) (lower s')
  end.

Definition same_name (a b : string) : bool := String.eqb (lower a) (lower b).

Definition has_column (c : string) (cols : list string) : bool :=
  existsb (same_name c) cols.

(** [ALTER TABLE tasks ADD COLUMN c ...]: the column goes last; [None] is
    the OperationalError for a missing table or a duplicate column name. *)
Definition alter_tasks_add_column (c : string) (s : tables) : option tables :=
  match tasks_table s with
  | None => None
  | Some cols =>
      if has_column c cols then None
      else Some (mk (users_table s) (Some (cols ++ [c])))
  end.

(** [try: stmt  except: pass] *)
Definition try_pass (stmt : tables -> option tables) (s : tables) : tables :=
  match stmt s with
  | Some s' => s'
  | None => s
  end.

(** [CREATE TABLE IF NOT EXISTS users (...)] *)
Definition create_users_if_not_exists (sch : Sql.users_schema) (s : tables)
  : tables :=
  match users_table s with
  | Some _ => s
  | None => mk (Some sch) (tasks_table s)
  end.

(** [CREATE TABLE IF NOT EXISTS tasks (...)] *)
Definition create_tasks_if_not_exists (cols : list string) (s : tables)
  : tables :=
  match tasks_table s with
  | Some _ => s
  | None => mk (users_table s) (Some cols)
  end.

(** [create_tables] of [src/db.py]. *)
Definition db_create_tables (s : tables) : tables :=
  create_tasks_if_not_exists ["id"; "user_id"; "task"; "status"]%string
    (create_users_if_not_exists Db.users_schema s).

(** [create_tables] of [src/smart_study_planner.py]. *)
Definition create_tables (s : tables) : tables :=
  create_tasks_if_not_exists
    ["id"; "user_id"; "task"; "due_date"; "priority"; "status"]%string
    (create_users_if_not_exists Planner.users_schema s).

(** The "Upgrade old DB" block. *)
Definition upgrade_old_db (s : tables) : tables :=
  let s := try_pass (alter_tasks_add_column "due_date") s in
  let s := try_pass (alter_tasks_add_column "priority") s in
  try_pass (alter_tasks_add_column "status") s.

(** What every run of the script does to the schema before anything else:
    the upgrade block, then [create_tables()]. *)
Definition startup (s : tables) : tables := create_tables (upgrade_old_db s).

End Schema.

(* ================================================================== *)
(** ** The script of [src/smart_study_planner.py], one run at a time *)

Module Script.

(** [st.session_state.user]: the tuple that [login_user] returned. *)
Definition ident : Type := (Z * string * string)%type.

(** The widget whose click started the run, with the contents of its form;
    [salt] is the value that [bcrypt.gensalt()] draws in that run. *)
Inductive event : Type :=
| Idle
| RegisterButton (username email password salt : string)
| LoginButton (email password : string)
| AddTaskButton (task : string) (due_date : Date.date) (priority : string)
| RowButton (b : Planner.button)
| SendEmailButton.

(** What the run shows: [st.success], [st.error], [st.info],
    [st.sidebar.success], or the traceback of an uncaught exception. *)
Inductive notice : Type :=
| st_success (m : string)
| st_error (m : string)
| st_info (m : string)
| sidebar_success (m : string)
| traceback.

(** The [MIMEText] message handed to the SMTP transport. *)
Record message : Type :=
  mk_message { subject : string; from : option string;
               to : string; body : string }.

Record result : Type :=
  mk_result { session : option ident;
              store : Sql.db;
              rerun : bool;
              notices : list notice;
              download : option (list (list string));
              sent : option message }.

(** Whether the loop of [display_tasks] reaches an [st.rerun()]: the same
    tests as [Planner.display_rows]. *)
Fixpoint display_reruns (df : list Tasks.row) (pressed : option Planner.button)
  : bool :=
  match df with
  | [] => false
  | row :: rest =>
      if negb (String.eqb (Tasks.status row) "Completed")
         && Planner.clicked pressed (Planner.comp (Tasks.id row))
      then true
      else if Planner.clicked pressed (Planner.del (Tasks.id row))
      then true
      else display_reruns rest pressed
  end.

Definition row_button (ev : event) : option Planner.button :=
  match ev with
  | RowButton b => Some b
  | _ => None
  end.

Section WithCollaborators.
Context `{Bcrypt}.

(** [pd.to_datetime(_, errors='coerce')] on a cell and
    [df.to_string(index=False)]. *)
Variable to_datetime : option string -> option string.
Variable to_string : list Tasks.row -> string.

(** [EDUNET_EMAIL] and [EDUNET_EMAIL_PASSWORD] of the environment, and the
    SMTP exchange ([SMTP_SSL], [login], [sendmail]): [None] when it went
    through, [Some e] for the exception text. *)
Variable EMAIL : option string.
Variable EMAIL_PASSWORD : option string.
Variable smtp_send : option string -> option string -> message -> option string.

(** [register_user] on a file whose [users] table was declared with the
    constraints [sch] ([CREATE TABLE IF NOT EXISTS] keeps an earlier
    declaration). *)
Definition register_user_on (sch : Sql.users_schema)
    (username email password salt : string) (d : Sql.db)
  : outcome bool * Sql.db :=
  let conn := Planner.get_db_connection d in
  match Sql.fetchone (Sql.select_users_by_email email (Sql.working conn)) with
  | Some _ => (Returned false, Sql.close conn)
  | None =>
      let hashed := hashpw password salt in
      match Sql.try_execute
              (Sql.insert_user sch username email hashed) conn with
      | Some conn' => (Returned true, Sql.close (Sql.commit conn'))
      | None => (IntegrityError, Sql.close conn)
      end
  end.

(** The "Login / Register" branch on a [users] table that the application
    declared itself ([login_register_on] takes the constraints of the
    table). *)
Definition login_register (ev : event) (d : Sql.db) : result :=
  match ev with
  | RegisterButton username email password salt =>
      match Planner.register_user username email password salt d with
      | (Returned true, d') =>
          mk_result None d' false
            [st_success "Registered successfully! Please log in."] None None
      | (Returned false, d') =>
          mk_result None d' false [st_error "User already exists."] None None
      | (IntegrityError, d') => mk_result None d' false [traceback] None None
      end
  | LoginButton email password =>
      match Planner.login_user email password d with
      | (Some user, d') => mk_result (Some user) d' true [] None None
      | (None, d') =>
          mk_result None d' false [st_error "Invalid login."] None None
      end
  | _ => mk_result None d false [] None None
  end.

(** The same branch on a file whose [users] table was declared with the
    constraints [sch]. *)
Definition login_register_on (sch : Sql.users_schema) (ev : event)
    (d : Sql.db) : result :=
  match ev with
  | RegisterButton username email password salt =>
      match register_user_on sch username email password salt d with
      | (Returned true, d') =>
          mk_result None d' false
            [st_success "Registered successfully! Please log in."] None None
      | (Returned false, d') =>
          mk_result None d' false [st_error "User already exists."] None None
      | (IntegrityError, d') => mk_result None d' false [traceback] None None
      end
  | LoginButton email password =>
      match Planner.login_user email password d with
      | (Some user, d') => mk_result (Some user) d' true [] None None
      | (None, d') =>
          mk_result None d' false [st_error "Invalid login."] None None
      end
  | _ => mk_result None d false [] None None
  end.

(** The "Send My Tasks to Email" block. *)
Definition send_tasks (user : ident) (df : list Tasks.row)
  : message * notice :=
  let recipient_email := snd user in
  let msg := mk_message "Your Study Tasks" EMAIL recipient_email
                        (to_string df) in
  match smtp_send EMAIL EMAIL_PASSWORD msg with
  | None => (msg, st_success "Tasks sent to your email!")
  | Some e => (msg, st_error ("Email failed: " ++ e))
  end.

(** The "Main App" branch. *)
Definition main_app (today : Date.date) (status_filter : string)
    (ev : event) (user : ident) (d : Sql.db) : result :=
  let welcome :=
    sidebar_success ("Welcome, " ++ snd (fst user) ++ "!") in
  let user_id := fst (fst user) in
  let d := Planner.update_overdue_tasks user_id today d in
  match ev with
  | AddTaskButton task due_date priority =>
      mk_result (Some user)
        (Planner.add_task user_id task due_date priority d) true
        [welcome; st_success "Task added!"] None None
  | _ =>
      match Planner.fetch_tasks user_id d with
      | [] => mk_result (Some user) d false
                [welcome; st_info "No tasks yet!"] None None
      | df =>
          let df := Planner.coerce_due_date to_datetime df in
          let df_filtered := Planner.filter_status status_filter df in
          if display_reruns df_filtered (row_button ev)
          then mk_result (Some user)
                 (Planner.display_tasks df_filtered user_id (row_button ev) d)
                 true [welcome] None None
          else
            let csv := Planner.to_csv df in
            match ev with
            | SendEmailButton =>
                let (msg, shown) := send_tasks user df in
                mk_result (Some user) d false [welcome; shown]
                          (Some csv) (Some msg)
            | _ => mk_result (Some user) d false [welcome] (Some csv) None
            end
      end
  end.

(** One run of the script after the schema statements. *)
Definition run (today : Date.date) (status_filter : string) (ev : event)
    (user : option ident) (d : Sql.db) : result :=
  match user with
  | None => login_register ev d
  | Some u => main_app today status_filter ev u d
  end.

(** One interaction: the run started by the click and, when it ends in
    [st.rerun()], the run that follows at once ([today'] is its date). *)
Definition interact (today today' : Date.date) (status_filter : string)
    (ev : event) (user : option ident) (d : Sql.db) : result :=
  let r := run today status_filter ev user d in
  if rerun r then run today' status_filter Idle (session r) (store r) else r.

End WithCollaborators.

(** A sequence of task-store actions. *)
Definition run_all (l : list Planner.action) (d : Sql.db) : Sql.db :=
  fold_left (fun d a => Planner.run a d) l d.

(** The session names a stored user. *)
Definition session_valid (user : option ident) (d : Sql.db) : Prop :=
  match user with
  | None => True
  | Some u =>
      exists r, In r (Sql.users d) /\
                u = (Users.id r, Users.username r, Users.email r)
  end.

(** [sqlite_sequence] is at least every rowid in use. *)
Definition sequence_covers (d : Sql.db) : Prop :=
  forall i, In i (map Tasks.id (Sql.tasks d)) -> i <= Sql.tasks_seq d.

(** Every status is one of the three that the application writes. *)
Definition known_status (s : string) : Prop :=
  s = "Pending"%string \/ s = "Completed"%string \/ s = "Overdue"%string.

Definition statuses_known (d : Sql.db) : Prop :=
  Forall (fun r => known_status (Tasks.status r)) (Sql.tasks d).

End Script.

(* ================================================================== *)
(** ** The data frame of the page, by position *)

Module Frame.

(** The column orders that the repository's own statements give the
    [tasks] table: the one [create_tables] of the application declares, and
    the one that the upgrade block leaves on a table declared by
    [src/db.py] (its four columns, then the two that were missing). *)
Inductive layout : Type :=
| as_planner
| as_db_py.

Definition columns (l : layout) : list string :=
  match l with
  | as_planner =>
      ["id"; "user_id"; "task"; "due_date"; "priority"; "status"]%string
  | as_db_py =>
      ["id"; "user_id"; "task"; "status"; "due_date"; "priority"]%string
  end.

(** A value as [sqlite3] hands it over: None, an int or a str. *)
Inductive cell : Type :=
| null
| int (n : Z)
| text (s : string).

(** The value of a stored row in the column of a given name. *)
Definition stored (column : string) (r : Tasks.row) : cell :=
  if String.eqb column "id" then int (Tasks.id r)
  else if String.eqb column "user_id" then int (Tasks.user_id r)
  else if String.eqb column "task" then text (Tasks.task r)
  else if String.eqb column "due_date"
       then match Tasks.due_date r with Some s => text s | None => null end
  else if String.eqb column "priority" then text (Tasks.priority r)
  else if String.eqb column "status" then text (Tasks.status r)
  else null.

(** [SELECT *]: the tuple of a row, in the column order of the table. *)
Definition select_star (l : layout) (r : Tasks.row) : list cell :=
  map (fun c => stored c r) (columns l).

(** [pd.DataFrame(tasks, columns=[...])] names the values of a tuple by
    position: [row[label]] is the value at the place of [label] in the
    list of labels. *)
Fixpoint position (label : string) (labels : list string) : nat :=
  match labels with
  | [] => 0%nat
  | x :: rest => if String.eqb x label then 0%nat else S (position label rest)
  end.

Definition at_label (tuple : list cell) (label : string) : cell :=
  nth (position label Planner.columns) tuple null.

(** A row of the data frame, by label. *)
Record row : Type :=
  mk { id : Z; user_id : Z; task : string;
       due_date : option string; priority : option string; status : string }.

(** A fetched row under the labels of the page.  In the application's own
    order label and column coincide; in [db.py]'s order the fourth, fifth
    and sixth values of the tuple (the stored status, due date and
    priority) are the ones labelled [due_date], [priority] and [status]. *)
Definition labelled (l : layout) (r : Tasks.row) : row :=
  match l with
  | as_planner =>
      mk (Tasks.id r) (Tasks.user_id r) (Tasks.task r)
         (Tasks.due_date r) (Some (Tasks.priority r)) (Tasks.status r)
  | as_db_py =>
      mk (Tasks.id r) (Tasks.user_id r) (Tasks.task r)
         (Some (Tasks.status r)) (Tasks.due_date r) (Tasks.priority r)
  end.

(** The task fetch and the construction of [df]. *)
Definition data_frame (l : layout) (user_id : Z) (d : Sql.db) : list row :=
  let conn := Planner.get_db_connection d in
  map (labelled l) (Sql.select_tasks_by_user user_id (Sql.working conn)).

Section WithPandas.
Variable to_datetime : option string -> option string.

(** [df['due_date'] = pd.to_datetime(df['due_date'], errors='coerce')] *)
Definition coerce_due_date (df : list row) : list row :=
  map (fun r => mk (id r) (user_id r) (task r) (to_datetime (due_date r))
                   (priority r) (status r)) df.

(** [df if status_filter=="All" else df[df['status']==status_filter]] *)
Definition filter_status (status_filter : string) (df : list row)
  : list row :=
  if String.eqb status_filter "All" then df
  else filter (fun r => String.eqb (status r) status_filter) df.

(** The loop of [display_tasks] on the rows of the frame: it reads
    [row['status']] and [row['id']]. *)
Fixpoint display_rows (df : list row) (user_id : Z)
    (pressed : option Planner.button) (conn : Sql.connection)
  : Sql.connection :=
  match df with
  | [] => conn
  | row :: rest =>
      if negb (String.eqb (status row) "Completed")
         && Planner.clicked pressed (Planner.comp (id row))
      then Sql.commit
             (Sql.execute
                (Sql.update_status "Completed" (id row) user_id) conn)
      else if Planner.clicked pressed (Planner.del (id row))
      then Sql.commit
             (Sql.execute (Sql.delete_task (id row) user_id) conn)
      else display_rows rest user_id pressed conn
  end.

Definition display_tasks (df : list row) (user_id : Z)
    (pressed : option Planner.button) (d : Sql.db) : Sql.db :=
  Sql.close (display_rows df user_id pressed (Planner.get_db_connection d)).

(** The display step of the main page on a table in column order [l]. *)
Definition page_display (l : layout) (user_id : Z) (status_filter : string)
    (pressed : option Planner.button) (d : Sql.db) : Sql.db :=
  match data_frame l user_id d with
  | [] => d
  | df =>
      let df := coerce_due_date df in
      let df_filtered := filter_status status_filter df in
      display_tasks df_filtered user_id pressed d
  end.

End WithPandas.

End Frame.

(** Further fixtures. *)
Module Sample.

Definition to_string (df : list Tasks.row) : string :=
  String.concat "; " (map Tasks.task df).

Definition smtp_ok (_ _ : option string) (_ : Script.message)
  : option string := None.

Definition alice_session : option Script.ident :=
  Some (1, "alice"%string, "alice@x.com"%string).

(** A file created by [src/db.py]. *)
Definition legacy : Schema.tables := Schema.db_create_tables Schema.fresh.

End Sample.

(* ================================================================== *)
(** * Properties *)

(** ** ISO text order is calendar order *)

Section IsoOrder.

Lemma digit_mod (n : Z) : Date.digit (n mod 10) = Date.digit n.
Proof. unfold Date.digit. now rewrite Z.mod_mod by lia. Qed.

Lemma digit_compare (a b : Z) :
  0 <= a < 10 -> 0 <= b < 10 ->
  Ascii.compare (Date.digit a) (Date.digit b) = (a ?= b).
Proof.
  intros Ha Hb.
  assert (Ea : a = 0 \/ a = 1 \/ a = 2 \/ a = 3 \/ a = 4 \/
               a = 5 \/ a = 6 \/ a = 7 \/ a = 8 \/ a = 9) by lia.
  assert (Eb : b = 0 \/ b = 1 \/ b = 2 \/ b = 3 \/ b = 4 \/
               b = 5 \/ b = 6 \/ b = 7 \/ b = 8 \/ b = 9) by lia.
  repeat (destruct Ea as [-> | Ea]);
    repeat (destruct Eb as [-> | Eb]); subst; reflexivity.
Qed.

(** Comparing numbers is comparing (quotient, remainder) pairs. *)
Lemma compare_quot_rem (k a b : Z) :
  0 < k ->
  (a ?= b) = match a / k ?= b / k with
             | Eq => a mod k ?= b mod k
             | c => c
             end.
Proof.
  intros Hk.
  pose proof (Z.div_mod a k ltac:(lia)) as Ea.
  pose proof (Z.div_mod b k ltac:(lia)) as Eb.
  pose proof (Z.mod_pos_bound a k Hk) as Ba.
  pose proof (Z.mod_pos_bound b k Hk) as Bb.
  destruct (Z.compare_spec (a / k) (b / k)) as [E | L | G].
  - rewrite Ea, Eb at 1. rewrite E.
    destruct (Z.compare_spec (a mod k) (b mod k));
      [apply Z.compare_eq_iff | apply Z.compare_lt_iff | apply Z.compare_gt_iff];
      lia.
  - apply Z.compare_lt_iff. nia.
  - apply Z.compare_gt_iff. nia.
Qed.

Lemma zfill2_compare (a b : Z) :
  0 <= a < 100 -> 0 <= b < 100 ->
  String.compare (Date.zfill2 a) (Date.zfill2 b) = (a ?= b).
Proof.
  intros Ha Hb. unfold Date.zfill2. cbn [String.compare].
  rewrite <- (digit_mod a), <- (digit_mod b).
  rewrite !digit_compare
    by (try apply Z.mod_pos_bound; try (split; [apply Z.div_pos | apply Z.div_lt_upper_bound]); lia).
  rewrite (compare_quot_rem 10 a b) by lia.
  destruct (a / 10 ?= b / 10); try reflexivity.
  now destruct (a mod 10 ?= b mod 10).
Qed.

(** Byte-wise comparison goes block by block on equal-length prefixes. *)
Lemma string_compare_app (p q s t : string) :
  String.length p = String.length q ->
  String.compare (p ++ s) (q ++ t) =
  match String.compare p q with
  | Eq => String.compare s t
  | c => c
  end.
Proof.
  revert q. induction p as [| c p IH]; intros [| c' q] Hlen;
    try discriminate; cbn in *.
  - reflexivity.
  - destruct (Ascii.compare c c'); try reflexivity.
    apply IH. congruence.
Qed.

Lemma zfill2_length (n : Z) : String.length (Date.zfill2 n) = 2%nat.
Proof. reflexivity. Qed.

Lemma zfill4_length (n : Z) : String.length (Date.zfill4 n) = 4%nat.
Proof. reflexivity. Qed.

Lemma zfill4_compare (a b : Z) :
  0 <= a < 10000 -> 0 <= b < 10000 ->
  String.compare (Date.zfill4 a) (Date.zfill4 b) = (a ?= b).
Proof.
  intros Ha Hb. unfold Date.zfill4.
  rewrite string_compare_app by reflexivity.
  rewrite !zfill2_compare
    by (try apply Z.mod_pos_bound; try (split; [apply Z.div_pos | apply Z.div_lt_upper_bound]); lia).
  now rewrite (compare_quot_rem 100 a b) by lia.
Qed.

Lemma isoformat_compare (a b : Date.date) :
  Date.fixed_width a -> Date.fixed_width b ->
  String.compare (Date.isoformat a) (Date.isoformat b) = Date.compare a b.
Proof.
  intros (Ya & Ma & Da) (Yb & Mb & Db). unfold Date.isoformat, Date.compare.
  rewrite string_compare_app by reflexivity.
  rewrite zfill4_compare by assumption.
  destruct (Date.year a ?= Date.year b); try reflexivity.
  rewrite (string_compare_app "-" "-") by reflexivity.
  cbn [String.compare]. change (Ascii.compare "-" "-") with Eq. cbn iota.
  rewrite string_compare_app by reflexivity.
  rewrite zfill2_compare by assumption.
  destruct (Date.month a ?= Date.month b); try reflexivity.
  rewrite (string_compare_app "-" "-") by reflexivity.
  cbn [String.compare]. change (Ascii.compare "-" "-") with Eq. cbn iota.
  now apply zfill2_compare.
Qed.

Lemma days_in_month_bounds (y m : Z) : 28 <= Date.days_in_month y m <= 31.
Proof.
  unfold Date.days_in_month.
  destruct (m =? 2); [destruct (Date.is_leap y); lia |].
  destruct ((m =? 4) || (m =? 6) || (m =? 9) || (m =? 11)); lia.
Qed.

Lemma valid_spec (d : Date.date) :
  Date.valid d = true <->
  1 <= Date.year d <= 9999 /\ 1 <= Date.month d <= 12 /\
  1 <= Date.day d <= Date.days_in_month (Date.year d) (Date.month d).
Proof. unfold Date.valid. rewrite !andb_true_iff, !Z.leb_le. lia. Qed.

Lemma valid_fixed_width (d : Date.date) :
  Date.valid d = true -> Date.fixed_width d.
Proof.
  intros V. apply valid_spec in V.
  pose proof (days_in_month_bounds (Date.year d) (Date.month d)).
  unfold Date.fixed_width. lia.
Qed.

(** On the dates Python can represent, SQLite's TEXT [<] is "earlier". *)
Lemma isoformat_ltb (a b : Date.date) :
  Date.valid a = true -> Date.valid b = true ->
  String.ltb (Date.isoformat a) (Date.isoformat b) = Date.ltb a b.
Proof.
  intros Va Vb. unfold String.ltb, Date.ltb.
  now rewrite isoformat_compare by now apply valid_fixed_width.
Qed.

Lemma yesterday_valid (d y : Date.date) :
  Date.valid d = true -> Date.yesterday d = Some y -> Date.valid y = true.
Proof.
  intros V E. apply valid_spec in V. apply valid_spec.
  unfold Date.yesterday in E.
  destruct (Z.ltb_spec 1 (Date.day d)); [injection E as <-; cbn; lia |].
  destruct (Z.ltb_spec 1 (Date.month d)).
  { injection E as <-; cbn.
    pose proof (days_in_month_bounds (Date.year d) (Date.month d - 1)). lia. }
  destruct (Z.ltb_spec 1 (Date.year d)); [| discriminate].
  injection E as <-; cbn. lia.
Qed.

Lemma yesterday_earlier (d y : Date.date) :
  Date.yesterday d = Some y -> Date.ltb y d = true.
Proof.
  intros E. unfold Date.yesterday in E. unfold Date.ltb, Date.compare.
  destruct (Z.ltb_spec 1 (Date.day d)).
  { injection E as <-; cbn. rewrite !Z.compare_refl.
    now replace (Date.day d - 1 ?= Date.day d) with Lt
      by (symmetry; apply Z.compare_lt_iff; lia). }
  destruct (Z.ltb_spec 1 (Date.month d)).
  { injection E as <-; cbn. rewrite Z.compare_refl.
    now replace (Date.month d - 1 ?= Date.month d) with Lt
      by (symmetry; apply Z.compare_lt_iff; lia). }
  destruct (Z.ltb_spec 1 (Date.year d)); [| discriminate].
  injection E as <-; cbn.
  now replace (Date.year d - 1 ?= Date.year d) with Lt
    by (symmetry; apply Z.compare_lt_iff; lia).
Qed.

(** [today - timedelta(days=1)] exists for every date but [date.min]. *)
Lemma yesterday_defined (d : Date.date) :
  Date.valid d = true -> d <> Date.mk 1 1 1 ->
  exists y, Date.yesterday d = Some y.
Proof.
  intros V N. apply valid_spec in V. unfold Date.yesterday.
  destruct (Z.ltb_spec 1 (Date.day d)); [eauto |].
  destruct (Z.ltb_spec 1 (Date.month d)); [eauto |].
  destruct (Z.ltb_spec 1 (Date.year d)); [eauto |].
  exfalso. apply N. destruct d as [y m dd]; cbn in *. f_equal; lia.
Qed.

End IsoOrder.

(** ** Rows and keys *)

Section TaskRows.

Lemma set_status_id (s : string) (r : Tasks.row) :
  Tasks.id (Tasks.set_status s r) = Tasks.id r.
Proof. reflexivity. Qed.

Lemma set_overdue_id (u : Z) (today : string) (r : Tasks.row) :
  Tasks.id (Sql.set_overdue u today r) = Tasks.id r.
Proof. unfold Sql.set_overdue. now destruct (Sql.selected _). Qed.

Lemma set_status_where_id (s : string) (i u : Z) (r : Tasks.row) :
  Tasks.id (Sql.set_status_where s i u r) = Tasks.id r.
Proof. unfold Sql.set_status_where. now destruct (Sql.owned_row _ _ _). Qed.

(** An UPDATE that keeps the key column keeps every row findable. *)
Lemma find_map_key (f : Tasks.row -> Tasks.row) (i : Z) (l : list Tasks.row) :
  (forall r, Tasks.id (f r) = Tasks.id r) ->
  find (fun r => Tasks.id r =? i) (map f l) =
  option_map f (find (fun r => Tasks.id r =? i) l).
Proof.
  intros Hf. induction l as [| r l IH]; cbn; [reflexivity |].
  rewrite Hf. now destruct (Tasks.id r =? i).
Qed.

Lemma find_some_key (i : Z) (l : list Tasks.row) (t : Tasks.row) :
  find (fun r => Tasks.id r =? i) l = Some t -> In t l /\ Tasks.id t = i.
Proof.
  intros E. apply find_some in E as [I K]. split; [assumption |].
  now apply Z.eqb_eq.
Qed.

(** A column under a uniqueness constraint identifies the row. *)
Lemma unique_column_injective {A B : Type} (f : A -> B) (l : list A) (a b : A) :
  NoDup (map f l) -> In a l -> In b l -> f a = f b -> a = b.
Proof.
  induction l as [| r l IH]; cbn; [tauto |].
  intros ND [-> | Ia] [-> | Ib] E; inversion ND as [| ? ? Nin ND']; subst.
  - reflexivity.
  - exfalso. apply Nin. rewrite E. now apply in_map.
  - exfalso. apply Nin. rewrite <- E. now apply in_map.
  - now apply IH.
Qed.

Lemma key_injective (l : list Tasks.row) (a b : Tasks.row) :
  NoDup (map Tasks.id l) -> In a l -> In b l ->
  Tasks.id a = Tasks.id b -> a = b.
Proof. apply unique_column_injective. Qed.

(** Under the PRIMARY KEY constraint every stored row is the one found
    under its id. *)
Lemma find_task_stored (d : Sql.db) (t : Tasks.row) :
  Sql.primary_key d -> In t (Sql.tasks d) ->
  Sql.find_task (Tasks.id t) d = Some t.
Proof.
  intros PK I. unfold Sql.find_task.
  destruct (find _ _) as [r |] eqn:E.
  - apply find_some_key in E as [Ir K]. f_equal.
    now apply (key_injective (Sql.tasks d)).
  - exfalso. apply (find_none _ _ E) in I. cbn in I.
    now rewrite Z.eqb_refl in I.
Qed.

Lemma max_rowid_bound (ids : list Z) (x : Z) :
  In x ids -> x <= Sql.max_rowid ids.
Proof.
  unfold Sql.max_rowid.
  induction ids as [| y ids IH]; cbn [fold_right In]; [tauto |].
  intros [-> | I]; [lia |]. specialize (IH I). lia.
Qed.

Lemma next_rowid_fresh (ids : list Z) (seq : Z) :
  ~ In (Sql.next_rowid ids seq) ids.
Proof.
  intros I. apply max_rowid_bound in I. unfold Sql.next_rowid in I. lia.
Qed.

Lemma update_overdue_tasks_unfold (u : Z) (today : Date.date) (d : Sql.db) :
  Planner.update_overdue_tasks u today d =
  Sql.update_overdue u (Date.isoformat today) d.
Proof. reflexivity. Qed.

(** When the WHERE clause of the reconciler is TRUE. *)
Lemma overdue_where_selected (u : Z) (today : string) (r : Tasks.row) :
  Sql.selected (Sql.overdue_where u today r) = true <->
  Tasks.user_id r = u /\ Tasks.status r = "Pending"%string /\
  Sql.due_before r today.
Proof.
  unfold Sql.overdue_where, Sql.due_before, Sql.lt_text.
  destruct (Z.eqb_spec (Tasks.user_id r) u) as [Eu | Nu];
    destruct (String.eqb_spec (Tasks.status r) "Pending") as [Es | Ns];
    destruct (Tasks.due_date r) as [s |]; cbn;
    try destruct (String.ltb s today) eqn:L; cbn;
    split; try discriminate; try tauto;
    try (intros (_ & _ & s' & E' & L'); congruence);
    try (intros _; repeat split; try assumption; eexists; split; [reflexivity | assumption]).
Qed.

Lemma find_task_update_overdue (u : Z) (today : string) (i : Z) (d : Sql.db) :
  Sql.find_task i (Sql.update_overdue u today d) =
  option_map (Sql.set_overdue u today) (Sql.find_task i d).
Proof.
  unfold Sql.find_task, Sql.update_overdue; cbn.
  apply find_map_key, set_overdue_id.
Qed.

End TaskRows.

(** ** Status reconciler *)

(** C1: reconciliation for user [u] at [today] turns into Overdue exactly the
    rows owned by [u] that are Pending with a due date strictly before
    [today] (the row found afterwards has status "Overdue" and its other
    columns as before), and leaves every other row (and the set of rows) as
    it was; for a due date written by the application the stored text
    decides "before" as the calendar does, so a Pending row of [u] due on
    the day before [today] becomes Overdue; a row with a NULL due date is
    never touched. *)
Theorem update_overdue_tasks_marks_exactly_overdue :
  forall (d : Sql.db) (u : Z) (today : Date.date) (i : Z) (t : Tasks.row),
    Sql.find_task i d = Some t ->
    (Tasks.user_id t = u /\ Tasks.status t = "Pending"%string /\
     Sql.due_before t (Date.isoformat today) ->
     Sql.find_task i (Planner.update_overdue_tasks u today d)
     = Some (Tasks.mk (Tasks.id t) (Tasks.user_id t) (Tasks.task t)
                     (Tasks.due_date t) (Tasks.priority t) "Overdue"))
    /\ (~ (Tasks.user_id t = u /\ Tasks.status t = "Pending"%string /\
           Sql.due_before t (Date.isoformat today)) ->
        Sql.find_task i (Planner.update_overdue_tasks u today d) = Some t)
    /\ (Tasks.due_date t = None ->
        Sql.find_task i (Planner.update_overdue_tasks u today d) = Some t)
    /\ (forall due : Date.date,
           Date.valid due = true -> Date.valid today = true ->
           Tasks.due_date t = Some (Date.isoformat due) ->
           (Sql.due_before t (Date.isoformat today) <->
            Date.ltb due today = true))
    /\ (forall y : Date.date,
           Date.valid today = true -> Date.yesterday today = Some y ->
           Tasks.user_id t = u -> Tasks.status t = "Pending"%string ->
           Tasks.due_date t = Some (Date.isoformat y) ->
           Sql.find_task i (Planner.update_overdue_tasks u today d)
           = Some (Tasks.mk (Tasks.id t) (Tasks.user_id t) (Tasks.task t)
                     (Tasks.due_date t) (Tasks.priority t) "Overdue"))
    /\ map Tasks.id (Sql.tasks (Planner.update_overdue_tasks u today d))
       = map Tasks.id (Sql.tasks d)
    /\ Sql.users (Planner.update_overdue_tasks u today d) = Sql.users d.
Proof.
  intros d u today i t F.
  rewrite update_overdue_tasks_unfold, find_task_update_overdue, F.
  cbn [option_map]. unfold Sql.set_overdue.
  assert (Hdue : forall due, Date.valid due = true -> Date.valid today = true ->
            Tasks.due_date t = Some (Date.isoformat due) ->
            (Sql.due_before t (Date.isoformat today) <->
             Date.ltb due today = true)).
  { intros due Vd Vt E. unfold Sql.due_before. rewrite E.
    rewrite <- (isoformat_ltb due today Vd Vt). split.
    - intros (s & Es & L). now injection Es as <-.
    - intros L. eauto. }
  refine (conj _ (conj _ (conj _ (conj Hdue (conj _ (conj _ eq_refl)))))).
  - intros C. apply overdue_where_selected in C. now rewrite C.
  - intros C. destruct (Sql.selected _) eqn:S; [| reflexivity].
    exfalso. now apply C, overdue_where_selected.
  - intros N. destruct (Sql.selected _) eqn:S; [| reflexivity].
    apply overdue_where_selected in S as (_ & _ & s & E & _). congruence.
  - intros y Vt Y Eu Es Ed.
    assert (C : Sql.selected
                  (Sql.overdue_where u (Date.isoformat today) t) = true).
    { apply overdue_where_selected. repeat split; try assumption.
      apply (Hdue y); try assumption.
      - now apply (yesterday_valid today).
      - now apply yesterday_earlier. }
    now rewrite C.
  - cbn. rewrite map_map. apply map_ext. intros r. apply set_overdue_id.
Qed.

Lemma update_overdue_tasks_marks_exactly_overdue_witness :
  Sql.find_task 1 (Planner.update_overdue_tasks 1 Fixture.june_first Fixture.store)
  = Some (Tasks.mk 1 1 "Read chapter 1" (Some "2024-01-01"%string) "High"
                   "Overdue").
Proof.
  apply (update_overdue_tasks_marks_exactly_overdue
           Fixture.store 1 Fixture.june_first 1 Fixture.read_chapter).
  - reflexivity.
  - repeat split. exists "2024-01-01"%string. split; reflexivity.
Defined.

Lemma set_overdue_idempotent (u : Z) (today : string) (r : Tasks.row) :
  Sql.set_overdue u today (Sql.set_overdue u today r) = Sql.set_overdue u today r.
Proof.
  unfold Sql.set_overdue at 2 3.
  destruct (Sql.selected (Sql.overdue_where u today r)) eqn:S.
  - unfold Sql.set_overdue, Sql.overdue_where. cbn.
    now destruct (Tasks.user_id r =? u), (Sql.lt_text (Tasks.due_date r) today)
      as [[|] |].
  - unfold Sql.set_overdue. now rewrite S.
Qed.

(** C2: reconciliation is idempotent: a second run for the same user and the
    same [today] leaves the store, hence every status, as the first run left
    it. *)
Theorem update_overdue_tasks_idempotent :
  forall (d : Sql.db) (u : Z) (today : Date.date),
    Planner.update_overdue_tasks u today (Planner.update_overdue_tasks u today d)
    = Planner.update_overdue_tasks u today d.
Proof.
  intros d u today. rewrite !update_overdue_tasks_unfold.
  unfold Sql.update_overdue; cbn. f_equal.
  rewrite map_map. apply map_ext. intros r. apply set_overdue_idempotent.
Qed.

(** C3: reconciliation never changes a row whose status is not Pending; a
    Completed row, in particular, is found Completed after any later pass. *)
Theorem update_overdue_tasks_keeps_non_pending :
  forall (d : Sql.db) (u : Z) (today : Date.date) (i : Z) (t : Tasks.row),
    Sql.find_task i d = Some t ->
    Tasks.status t <> "Pending"%string ->
    Sql.find_task i (Planner.update_overdue_tasks u today d) = Some t.
Proof.
  intros d u today i t F N.
  rewrite update_overdue_tasks_unfold, find_task_update_overdue, F.
  cbn [option_map]. unfold Sql.set_overdue.
  destruct (Sql.selected _) eqn:S; [| reflexivity].
  apply overdue_where_selected in S as (_ & E & _). contradiction.
Qed.

Lemma update_overdue_tasks_keeps_non_pending_witness :
  Sql.find_task 4 (Planner.update_overdue_tasks 1 Fixture.june_first Fixture.store)
  = Some Fixture.done_task.
Proof.
  apply (update_overdue_tasks_keeps_non_pending
           Fixture.store 1 Fixture.june_first 4 Fixture.done_task).
  - reflexivity.
  - discriminate.
Defined.

(** ** Task store: ownership scoping *)

Section Ownership.

Lemma map_fixed {A : Type} (f : A -> A) (l : list A) :
  (forall x, In x l -> f x = x) -> map f l = l.
Proof.
  intros Hf. rewrite <- (map_id l) at 2. now apply map_ext_in.
Qed.

Lemma filter_all {A : Type} (p : A -> bool) (l : list A) :
  (forall x, In x l -> p x = true) -> filter p l = l.
Proof.
  induction l as [| a l IH]; cbn; intros Hp; [reflexivity |].
  rewrite (Hp a) by now left. f_equal. apply IH. intros x I. apply Hp. now right.
Qed.

(** No row is both keyed like a foreign row and owned by the caller. *)
Lemma foreign_row_not_owned (d : Sql.db) (t r : Tasks.row) (u : Z) :
  Sql.primary_key d -> In t (Sql.tasks d) -> Tasks.user_id t <> u ->
  In r (Sql.tasks d) -> Sql.owned_row (Tasks.id t) u r = false.
Proof.
  intros PK It Nu Ir. unfold Sql.owned_row.
  destruct (Z.eqb_spec (Tasks.id r) (Tasks.id t)) as [E | N]; [| reflexivity].
  assert (r = t) by now apply (key_injective (Sql.tasks d)).
  subst r. cbn. now apply Z.eqb_neq.
Qed.

Lemma update_status_foreign (s : string) (d : Sql.db) (t : Tasks.row) (u : Z) :
  Sql.primary_key d -> In t (Sql.tasks d) -> Tasks.user_id t <> u ->
  Sql.update_status s (Tasks.id t) u d = d.
Proof.
  intros PK It Nu. destruct d as [us useq ts tseq]. unfold Sql.update_status.
  cbn [Sql.users Sql.users_seq Sql.tasks Sql.tasks_seq] in *. f_equal.
  apply map_fixed. intros r Ir. unfold Sql.set_status_where.
  now rewrite (foreign_row_not_owned (Sql.mk_db us useq ts tseq) t r u).
Qed.

Lemma delete_task_foreign (d : Sql.db) (t : Tasks.row) (u : Z) :
  Sql.primary_key d -> In t (Sql.tasks d) -> Tasks.user_id t <> u ->
  Sql.delete_task (Tasks.id t) u d = d.
Proof.
  intros PK It Nu. destruct d as [us useq ts tseq]. unfold Sql.delete_task.
  cbn [Sql.users Sql.users_seq Sql.tasks Sql.tasks_seq] in *. f_equal.
  apply filter_all. intros r Ir.
  now rewrite (foreign_row_not_owned (Sql.mk_db us useq ts tseq) t r u).
Qed.

(** What [display_tasks] can do to the store: nothing, one completion, or
    one deletion, always scoped by the caller's id. *)
Lemma display_tasks_cases (df : list Tasks.row) (u : Z)
    (pressed : option Planner.button) (d : Sql.db) :
  Planner.display_tasks df u pressed d = d
  \/ (exists row, In row df /\ pressed = Some (Planner.comp (Tasks.id row)) /\
        Tasks.status row <> "Completed"%string /\
        Planner.display_tasks df u pressed d
        = Sql.update_status "Completed" (Tasks.id row) u d)
  \/ (exists row, In row df /\ pressed = Some (Planner.del (Tasks.id row)) /\
        Planner.display_tasks df u pressed d
        = Sql.delete_task (Tasks.id row) u d).
Proof.
  unfold Planner.display_tasks.
  induction df as [| row rest IH]; cbn [Planner.display_rows]; [now left |].
  destruct (String.eqb_spec (Tasks.status row) "Completed") as [Ec | Nc];
    cbn [negb andb].
  - destruct (Planner.clicked pressed (Planner.del (Tasks.id row))) eqn:Cd.
    + right; right. exists row. split; [now left |]. split; [| reflexivity].
      destruct pressed as [[j | j] |]; cbn in Cd; try discriminate.
      apply Z.eqb_eq in Cd. now subst.
    + destruct IH as [IH | [(r & I & P & S & E) | (r & I & P & E)]].
      * now left.
      * right; left. exists r. repeat split; try assumption. now right.
      * right; right. exists r. repeat split; try assumption. now right.
  - destruct (Planner.clicked pressed (Planner.comp (Tasks.id row))) eqn:Cc.
    + right; left. exists row. split; [now left |].
      split; [| split; [assumption | reflexivity]].
      destruct pressed as [[j | j] |]; cbn in Cc; try discriminate.
      apply Z.eqb_eq in Cc. now subst.
    + destruct (Planner.clicked pressed (Planner.del (Tasks.id row))) eqn:Cd.
      * right; right. exists row. split; [now left |]. split; [| reflexivity].
        destruct pressed as [[j | j] |]; cbn in Cd; try discriminate.
        apply Z.eqb_eq in Cd. now subst.
      * destruct IH as [IH | [(r & I & P & S & E) | (r & I & P & E)]].
        -- now left.
        -- right; left. exists r. repeat split; try assumption. now right.
        -- right; right. exists r. repeat split; try assumption. now right.
Qed.

End Ownership.

(** C4: a complete or delete action issued by a user who does not own the
    task matches no row: both statements, and [display_tasks] run with
    either button of that task clicked, leave the whole store (that task and
    every other one) exactly as it was. *)
Theorem foreign_complete_and_delete_are_noops :
  forall (d : Sql.db) (t : Tasks.row) (u : Z),
    Sql.primary_key d -> In t (Sql.tasks d) -> Tasks.user_id t <> u ->
    Sql.update_status "Completed" (Tasks.id t) u d = d
    /\ Sql.delete_task (Tasks.id t) u d = d
    /\ (forall df : list Tasks.row,
          Planner.display_tasks df u (Some (Planner.comp (Tasks.id t))) d = d
          /\ Planner.display_tasks df u (Some (Planner.del (Tasks.id t))) d = d).
Proof.
  intros d t u PK It Nu.
  split; [now apply update_status_foreign |].
  split; [now apply delete_task_foreign |].
  intros df. split.
  - destruct (display_tasks_cases df u (Some (Planner.comp (Tasks.id t))) d)
      as [E | [(r & _ & P & _ & E) | (r & _ & P & _)]];
      [assumption | | discriminate].
    injection P as P. rewrite E, <- P. now apply update_status_foreign.
  - destruct (display_tasks_cases df u (Some (Planner.del (Tasks.id t))) d)
      as [E | [(r & _ & P & _) | (r & _ & P & E)]];
      [assumption | discriminate |].
    injection P as P. rewrite E, <- P. now apply delete_task_foreign.
Qed.

Lemma store_primary_key : Sql.primary_key Fixture.store.
Proof.
  unfold Sql.primary_key. cbn.
  repeat (constructor; [cbn; intros F; repeat destruct F as [F | F];
                        try discriminate; try contradiction |]).
  constructor.
Qed.

Lemma foreign_complete_and_delete_are_noops_witness :
  Sql.update_status "Completed" 3 1 Fixture.store = Fixture.store
  /\ Sql.delete_task 3 1 Fixture.store = Fixture.store.
Proof.
  destruct (foreign_complete_and_delete_are_noops
              Fixture.store Fixture.bobs_task 1) as (U & D & _).
  - exact store_primary_key.
  - cbn. tauto.
  - cbn. discriminate.
  - split; assumption.
Defined.

(** ** Task store: insertion and field immutability *)

Section Mutations.

Lemma find_app_some {A : Type} (p : A -> bool) (l l' : list A) (x : A) :
  find p l = Some x -> find p (l ++ l') = Some x.
Proof.
  induction l as [| a l IH]; cbn; [discriminate |].
  now destruct (p a).
Qed.

Lemma find_absent_key (i : Z) (l : list Tasks.row) :
  ~ In i (map Tasks.id l) -> find (fun r => Tasks.id r =? i) l = None.
Proof.
  intros N. destruct (find _ l) as [r |] eqn:E; [| reflexivity].
  apply find_some_key in E as [I K]. exfalso. apply N. subst i.
  now apply in_map.
Qed.

Lemma in_map_filter (p : Tasks.row -> bool) (l : list Tasks.row) (i : Z) :
  In i (map Tasks.id (filter p l)) -> In i (map Tasks.id l).
Proof.
  rewrite !in_map_iff. intros (r & E & I). apply filter_In in I as [I _].
  eauto.
Qed.

Lemma NoDup_map_filter (p : Tasks.row -> bool) (l : list Tasks.row) :
  NoDup (map Tasks.id l) -> NoDup (map Tasks.id (filter p l)).
Proof.
  induction l as [| r l IH]; cbn; [trivial |].
  intros ND. inversion ND as [| ? ? Nin ND']; subst.
  destruct (p r); cbn; [| now apply IH].
  constructor; [| now apply IH].
  intros I. now apply Nin, (in_map_filter p).
Qed.

(** A DELETE removes the row found under [i] only when it is the addressed
    row and the caller owns it. *)
Lemma find_task_delete (d : Sql.db) (i j u : Z) (t : Tasks.row) :
  Sql.primary_key d -> Sql.find_task i d = Some t ->
  Sql.find_task i (Sql.delete_task j u d)
  = if Sql.owned_row j u t then None else Some t.
Proof.
  unfold Sql.primary_key, Sql.find_task, Sql.delete_task.
  cbn [Sql.tasks]. generalize (Sql.tasks d) as l.
  induction l as [| r l IH]; cbn [find filter map]; [discriminate |].
  intros ND F. inversion ND as [| ? ? Nin ND']; subst.
  destruct (Z.eqb_spec (Tasks.id r) i) as [E | N].
  - injection F as <-.
    destruct (Sql.owned_row j u r); cbn [negb find].
    + apply find_absent_key. intros I. apply Nin. rewrite E.
      now apply in_map_filter in I.
    + now rewrite (proj2 (Z.eqb_eq _ _) E).
  - destruct (Sql.owned_row j u r); cbn [negb find].
    + now apply IH.
    + rewrite (proj2 (Z.eqb_neq _ _) N). now apply IH.
Qed.

Lemma find_task_update_status (s : string) (i j u : Z) (d : Sql.db) :
  Sql.find_task i (Sql.update_status s j u d)
  = option_map (Sql.set_status_where s j u) (Sql.find_task i d).
Proof.
  unfold Sql.find_task, Sql.update_status; cbn.
  apply find_map_key, set_status_where_id.
Qed.

Lemma add_task_unfold (u : Z) (text : string) (due : Date.date)
    (p : string) (d : Sql.db) :
  Planner.add_task u text due p d
  = Sql.insert_task u text (Some (Date.isoformat due)) p "Pending" d.
Proof. reflexivity. Qed.

(** Rows that agree on every column but [status]. *)
Lemma set_status_fields (s : string) (t : Tasks.row) :
  Tasks.id (Tasks.set_status s t) = Tasks.id t
  /\ Tasks.user_id (Tasks.set_status s t) = Tasks.user_id t
  /\ Tasks.task (Tasks.set_status s t) = Tasks.task t
  /\ Tasks.due_date (Tasks.set_status s t) = Tasks.due_date t
  /\ Tasks.priority (Tasks.set_status s t) = Tasks.priority t.
Proof. repeat split. Qed.

(** Every action maps the row found under a key to itself up to status,
    or (a DELETE by the owner) to nothing. *)
Lemma run_find_task (a : Planner.action) (d : Sql.db) (i : Z) (t : Tasks.row) :
  Sql.primary_key d -> Sql.find_task i d = Some t ->
  Sql.find_task i (Planner.run a d) = Some t
  \/ (exists s, Sql.find_task i (Planner.run a d)
                = Some (Tasks.set_status s t))
  \/ (Sql.find_task i (Planner.run a d) = None
      /\ exists df, a = Planner.Display df (Tasks.user_id t)
                          (Some (Planner.del i))).
Proof.
  intros PK F. destruct a as [u today | df u pressed | u text due p];
    cbn [Planner.run].
  - rewrite update_overdue_tasks_unfold, find_task_update_overdue, F.
    cbn [option_map]. unfold Sql.set_overdue.
    destruct (Sql.selected _); eauto.
  - destruct (display_tasks_cases df u pressed d)
      as [E | [(r & _ & P & _ & E) | (r & _ & P & E)]]; rewrite E.
    + now left.
    + rewrite find_task_update_status, F. cbn [option_map].
      unfold Sql.set_status_where. destruct (Sql.owned_row _ _ _); eauto.
    + rewrite (find_task_delete d i (Tasks.id r) u t PK F).
      destruct (Sql.owned_row (Tasks.id r) u t) eqn:O; [| now left].
      right; right. split; [reflexivity |].
      unfold Sql.owned_row in O. apply andb_true_iff in O as [O1 O2].
      apply Z.eqb_eq in O1, O2.
      apply find_some_key in F as [_ K].
      exists df. subst pressed. rewrite O2. do 3 f_equal. congruence.
  - left. rewrite add_task_unfold. unfold Sql.find_task, Sql.insert_task.
    cbn [Sql.tasks]. now apply find_app_some.
Qed.

(** The PRIMARY KEY constraint is kept by every action. *)
Lemma run_primary_key (a : Planner.action) (d : Sql.db) :
  Sql.primary_key d -> Sql.primary_key (Planner.run a d).
Proof.
  unfold Sql.primary_key. intros PK.
  destruct a as [u today | df u pressed | u text due p]; cbn [Planner.run].
  - rewrite update_overdue_tasks_unfold. cbn. rewrite map_map.
    now rewrite (map_ext _ Tasks.id (set_overdue_id u (Date.isoformat today))).
  - destruct (display_tasks_cases df u pressed d)
      as [E | [(r & _ & _ & _ & E) | (r & _ & _ & E)]]; rewrite E.
    + assumption.
    + cbn. rewrite map_map.
      now rewrite (map_ext _ Tasks.id
                     (set_status_where_id "Completed" (Tasks.id r) u)).
    + cbn. now apply NoDup_map_filter.
  - rewrite add_task_unfold. cbn. rewrite map_app. cbn.
    apply NoDup_app; [assumption | repeat constructor; cbn; tauto |].
    intros x I [<- | []]. now apply next_rowid_fresh in I.
Qed.

(** Rows of other users are out of reach of [display_tasks], whatever is
    displayed and whichever button is clicked. *)
Lemma display_tasks_frame (df : list Tasks.row) (u : Z)
    (pressed : option Planner.button) (d : Sql.db) (i : Z) (t : Tasks.row) :
  Sql.primary_key d -> Sql.find_task i d = Some t -> Tasks.user_id t <> u ->
  Sql.find_task i (Planner.display_tasks df u pressed d) = Some t.
Proof.
  intros PK F N.
  assert (O : forall j, Sql.owned_row j u t = false).
  { intros j. unfold Sql.owned_row.
    rewrite (proj2 (Z.eqb_neq _ _) N). apply andb_false_r. }
  destruct (display_tasks_cases df u pressed d)
    as [E | [(r & _ & _ & _ & E) | (r & _ & _ & E)]]; rewrite E.
  - assumption.
  - rewrite find_task_update_status, F. cbn [option_map].
    unfold Sql.set_status_where. now rewrite O.
  - rewrite (find_task_delete d i (Tasks.id r) u t PK F). now rewrite O.
Qed.

End Mutations.


(** C9: no action of the system (reconciliation, the complete and delete
    buttons, add-task) modifies the id, owner, text, due date or priority of
    a stored task: afterwards the task is found under the same id with those
    five columns unchanged, or it is gone, which happens only through its
    owner's delete button. *)
Theorem stored_fields_are_immutable :
  forall (d : Sql.db) (a : Planner.action) (i : Z) (t : Tasks.row),
    Sql.primary_key d -> Sql.find_task i d = Some t ->
    (exists t' : Tasks.row,
        Sql.find_task i (Planner.run a d) = Some t'
        /\ Tasks.id t' = Tasks.id t
        /\ Tasks.user_id t' = Tasks.user_id t
        /\ Tasks.task t' = Tasks.task t
        /\ Tasks.due_date t' = Tasks.due_date t
        /\ Tasks.priority t' = Tasks.priority t)
    \/ (Sql.find_task i (Planner.run a d) = None
        /\ exists df, a = Planner.Display df (Tasks.user_id t)
                            (Some (Planner.del i))).
Proof.
  intros d a i t PK F.
  destruct (run_find_task a d i t PK F) as [E | [(s & E) | N]].
  - left. exists t. now repeat split.
  - left. exists (Tasks.set_status s t). split; [assumption |].
    apply set_status_fields.
  - now right.
Qed.

Lemma stored_fields_are_immutable_witness :
  exists t' : Tasks.row,
    Sql.find_task 1
      (Planner.run (Planner.Display [Fixture.read_chapter] 1
                      (Some (Planner.comp 1))) Fixture.store) = Some t'
    /\ Tasks.status t' = "Completed"%string
    /\ Tasks.task t' = "Read chapter 1"%string
    /\ Tasks.due_date t' = Some "2024-01-01"%string.
Proof.
  destruct (stored_fields_are_immutable Fixture.store
              (Planner.Display [Fixture.read_chapter] 1 (Some (Planner.comp 1)))
              1 Fixture.read_chapter store_primary_key eq_refl)
    as [(t' & F & _ & _ & T & D & _) | (N & _)].
  - exists t'. split; [assumption |].
    split; [| split; assumption].
    cbn in F. now injection F as <-.
  - cbn in N. discriminate.
Defined.

(** ** Credential store *)

Section Credentials.
Context `{Bcrypt}.

Lemma fetchone_filter_find {A : Type} (p : A -> bool) (l : list A) :
  Sql.fetchone (filter p l) = find p l.
Proof.
  induction l as [| a l IH]; cbn; [reflexivity |].
  destruct (p a); [reflexivity | exact IH].
Qed.

Lemma find_none_existsb {A : Type} (p : A -> bool) (l : list A) :
  find p l = None <-> existsb p l = false.
Proof.
  induction l as [| a l IH]; cbn; [tauto |].
  destruct (p a); cbn; [split; discriminate | exact IH].
Qed.

Lemma existsb_email (e : string) (l : list Users.row) :
  existsb (fun r => String.eqb (Users.email r) e) l = true
  <-> exists r, In r l /\ Users.email r = e.
Proof.
  rewrite existsb_exists. split; intros (r & I & E); exists r;
    (split; [assumption |]); now apply String.eqb_eq.
Qed.

Lemma existsb_username (n : string) (l : list Users.row) :
  existsb (fun r => String.eqb (Users.username r) n) l = true
  <-> exists r, In r l /\ Users.username r = n.
Proof.
  rewrite existsb_exists. split; intros (r & I & E); exists r;
    (split; [assumption |]); now apply String.eqb_eq.
Qed.

(** [register_user] of the main application: the email check decides, and
    the INSERT that follows it cannot raise. *)
Lemma planner_register_user_cases (username email password salt : string)
    (d : Sql.db) :
  Planner.register_user username email password salt d
  = if existsb (fun r => String.eqb (Users.email r) email) (Sql.users d)
    then (Returned false, d)
    else (Returned true,
          Sql.append_user username email (hashpw password salt) d).
Proof.
  unfold Planner.register_user, Planner.get_db_connection, Sql.connect,
    Sql.select_users_by_email, Sql.try_execute, Sql.insert_user,
    Planner.users_schema.
  cbn [Sql.working Sql.committed Sql.close Sql.commit Sql.unique_email
       Sql.unique_username andb].
  rewrite fetchone_filter_find.
  destruct (find _ (Sql.users d)) as [r |] eqn:F.
  - apply find_some in F.
    replace (existsb _ (Sql.users d)) with true; [reflexivity |].
    symmetry. apply existsb_exists. eauto.
  - apply find_none_existsb in F. rewrite F. reflexivity.
Qed.

(** [register_user] of [auth.py]: the UNIQUE constraints of [db.py] decide. *)
Lemma auth_register_user_cases (username email password salt : string)
    (d : Sql.db) :
  Auth.register_user username email password salt d
  = if existsb (fun r => String.eqb (Users.email r) email) (Sql.users d)
       || existsb (fun r => String.eqb (Users.username r) username) (Sql.users d)
    then (false, d)
    else (true, Sql.append_user username email (hashpw password salt) d).
Proof.
  unfold Auth.register_user, Db.get_db_connection, Sql.connect,
    Sql.try_execute, Sql.insert_user, Db.users_schema.
  cbn [Sql.working Sql.committed Sql.close Sql.commit Sql.unique_email
       Sql.unique_username andb].
  now destruct (_ || _).
Qed.

Lemma planner_register_user_never_raises
    (username email password salt : string) (d : Sql.db) :
  exists b : bool,
    fst (Planner.register_user username email password salt d) = Returned b.
Proof.
  rewrite planner_register_user_cases.
  destruct (existsb _ _); cbn [fst]; eauto.
Qed.

(** Where the two registrations coincide: on every input except a taken
    username with a fresh email. *)
Lemma register_user_agree (username email password salt : string) (d : Sql.db) :
  existsb (fun r => String.eqb (Users.username r) username) (Sql.users d) = false
  \/ existsb (fun r => String.eqb (Users.email r) email) (Sql.users d) = true ->
  Planner.register_user username email password salt d
  = (Returned (fst (Auth.register_user username email password salt d)),
     snd (Auth.register_user username email password salt d)).
Proof.
  rewrite planner_register_user_cases, auth_register_user_cases.
  intros [N | E].
  - rewrite N, orb_false_r. clear N. destruct (existsb _ _); reflexivity.
  - rewrite E. reflexivity.
Qed.

(** A collision on either column fails in [auth.py] and writes nothing;
    otherwise exactly one row is appended. *)
Lemma auth_register_user_spec (username email password salt : string)
    (d : Sql.db) :
  ((exists r, In r (Sql.users d) /\
              (Users.email r = email \/ Users.username r = username)) ->
   Auth.register_user username email password salt d = (false, d))
  /\ ((forall r, In r (Sql.users d) ->
                 Users.email r <> email /\ Users.username r <> username) ->
      exists i, ~ In i (map Users.id (Sql.users d)) /\
        fst (Auth.register_user username email password salt d) = true /\
        Sql.users (snd (Auth.register_user username email password salt d))
        = Sql.users d ++ [Users.mk i username email (hashpw password salt)]).
Proof.
  rewrite auth_register_user_cases. split.
  - intros (r & I & [E | E]).
    + rewrite (proj2 (existsb_email email (Sql.users d))) by eauto.
      reflexivity.
    + rewrite (proj2 (existsb_username username (Sql.users d))) by eauto.
      now rewrite orb_true_r.
  - intros N.
    destruct (existsb (fun r => String.eqb (Users.email r) email) _) eqn:E1.
    { apply existsb_email in E1 as (r & I & E). now destruct (N r I). }
    destruct (existsb (fun r => String.eqb (Users.username r) username) _)
      eqn:E2.
    { apply existsb_username in E2 as (r & I & E). now destruct (N r I). }
    eexists. split; [apply next_rowid_fresh |]. split; reflexivity.
Qed.

(** The main application fails on a taken email and writes nothing;
    otherwise it appends exactly one row, whatever the username. *)
Lemma planner_register_user_spec (username email password salt : string)
    (d : Sql.db) :
  ((exists r, In r (Sql.users d) /\ Users.email r = email) ->
   Planner.register_user username email password salt d = (Returned false, d))
  /\ ((forall r, In r (Sql.users d) -> Users.email r <> email) ->
      exists i, ~ In i (map Users.id (Sql.users d)) /\
        fst (Planner.register_user username email password salt d)
        = Returned true /\
        Sql.users (snd (Planner.register_user username email password salt d))
        = Sql.users d ++ [Users.mk i username email (hashpw password salt)]).
Proof.
  rewrite planner_register_user_cases. split.
  - intros E. apply existsb_email in E. now rewrite E.
  - intros N. destruct (existsb _ _) eqn:E1.
    { apply existsb_email in E1 as (r & I & E). now destruct (N r I). }
    eexists. split; [apply next_rowid_fresh |]. split; reflexivity.
Qed.

Lemma existsb_email_appended (username email password : string) (d : Sql.db) :
  existsb (fun r => String.eqb (Users.email r) email)
          (Sql.users (Sql.append_user username email password d)) = true.
Proof.
  unfold Sql.append_user. cbn [Sql.users]. rewrite existsb_app. cbn.
  now rewrite String.eqb_refl, orb_true_r.
Qed.

(** Registering an email a second time fails, in both implementations, and
    the table still holds one row for it. *)
Lemma register_user_same_email_twice
    (n1 n2 email p1 p2 s1 s2 : string) (d : Sql.db) :
  (forall r, In r (Sql.users d) -> Users.email r <> email) ->
  let d1 := snd (Planner.register_user n1 email p1 s1 d) in
  Planner.register_user n2 email p2 s2 d1 = (Returned false, d1)
  /\ Auth.register_user n2 email p2 s2 d1 = (false, d1)
  /\ List.length (Sql.select_users_by_email email d1) = 1%nat.
Proof.
  intros N d1. subst d1.
  rewrite (planner_register_user_cases n1).
  destruct (existsb _ (Sql.users d)) eqn:E1.
  { apply existsb_email in E1 as (r & I & E). now destruct (N r I). }
  cbn [snd].
  rewrite planner_register_user_cases, auth_register_user_cases.
  rewrite existsb_email_appended. cbn [orb].
  repeat split.
  unfold Sql.select_users_by_email, Sql.append_user. cbn [Sql.users].
  rewrite filter_app. cbn. rewrite String.eqb_refl.
  replace (filter _ (Sql.users d)) with (@nil Users.row); [reflexivity |].
  symmetry.
  destruct (filter _ (Sql.users d)) as [| r l] eqn:F; [reflexivity |].
  assert (I : In r (filter (fun r => String.eqb (Users.email r) email)
                           (Sql.users d))) by (rewrite F; now left).
  apply filter_In in I as [I E]. apply String.eqb_eq in E.
  now destruct (N r I).
Qed.

(** The UNIQUE constraint on email is kept by both registrations. *)
Lemma append_user_email_unique (username email password : string) (d : Sql.db) :
  Sql.email_unique d ->
  existsb (fun r => String.eqb (Users.email r) email) (Sql.users d) = false ->
  Sql.email_unique (Sql.append_user username email password d).
Proof.
  unfold Sql.email_unique, Sql.append_user. cbn [Sql.users].
  intros U E. rewrite map_app. cbn.
  apply NoDup_app; [assumption | repeat constructor; cbn; tauto |].
  intros x I [<- | []].
  apply in_map_iff in I as (r & Er & Ir).
  assert (X : existsb (fun r => String.eqb (Users.email r) email) (Sql.users d)
              = true) by (apply existsb_email; eauto).
  congruence.
Qed.

Lemma register_user_email_unique (username email password salt : string)
    (d : Sql.db) :
  Sql.email_unique d ->
  Sql.email_unique (snd (Planner.register_user username email password salt d))
  /\ Sql.email_unique (snd (Auth.register_user username email password salt d)).
Proof.
  intros U. rewrite planner_register_user_cases, auth_register_user_cases.
  destruct (existsb (fun r => String.eqb (Users.email r) email) _) eqn:E;
    cbn [orb snd].
  - now split.
  - split; [now apply append_user_email_unique |].
    destruct (existsb (fun r => String.eqb (Users.username r) username) _);
      cbn [snd]; [assumption | now apply append_user_email_unique].
Qed.

(** Registration never touches the task table. *)
Lemma register_user_keeps_tasks (username email password salt : string)
    (d : Sql.db) :
  Sql.tasks (snd (Planner.register_user username email password salt d))
  = Sql.tasks d
  /\ Sql.tasks (snd (Auth.register_user username email password salt d))
     = Sql.tasks d.
Proof.
  rewrite planner_register_user_cases, auth_register_user_cases.
  split; now destruct (_ : bool).
Qed.

(** The row that a login fetches. *)
Lemma fetchone_by_email (email : string) (d : Sql.db) (u : Users.row) :
  Sql.email_unique d ->
  (Sql.fetchone (Sql.select_users_by_email email d) = Some u
   <-> In u (Sql.users d) /\ Users.email u = email).
Proof.
  intros U. unfold Sql.select_users_by_email. rewrite fetchone_filter_find.
  split.
  - intros F. apply find_some in F as [I E]. split; [assumption |].
    now apply String.eqb_eq.
  - intros [I E]. destruct (find _ (Sql.users d)) as [r |] eqn:F.
    + apply find_some in F as [Ir Er]. apply String.eqb_eq in Er. f_equal.
      apply (unique_column_injective Users.email (Sql.users d));
        try assumption. congruence.
    + apply (find_none _ _ F) in I. cbn in I.
      apply String.eqb_neq in I. contradiction.
Qed.

End Credentials.

(** C6: under the UNIQUE constraint on email, [login_user] returns the
    identity (id, username, email) of a stored user exactly when that user
    carries the given email and the password verifies against its stored
    hash; an unknown email and a wrong password both give [None]; the store
    is returned as it was.  [auth.py] returns the whole fetched row in the
    same cases. *)
Theorem login_user_returns_identity_iff_verified :
  forall (B : Bcrypt) (d : Sql.db) (email password : string),
    Sql.email_unique d ->
    snd (Planner.login_user email password d) = d
    /\ (forall ident : Z * string * string,
          fst (Planner.login_user email password d) = Some ident <->
          exists u : Users.row,
            In u (Sql.users d) /\ Users.email u = email /\
            checkpw password (Users.password u) = true /\
            ident = (Users.id u, Users.username u, Users.email u))
    /\ ((forall u, In u (Sql.users d) -> Users.email u <> email) ->
        fst (Planner.login_user email password d) = None)
    /\ (forall u, In u (Sql.users d) -> Users.email u = email ->
                  checkpw password (Users.password u) = false ->
                  fst (Planner.login_user email password d) = None)
    /\ snd (Auth.login_user email password d) = d
    /\ (forall r : Users.row,
          fst (Auth.login_user email password d) = Some r <->
          In r (Sql.users d) /\ Users.email r = email /\
          checkpw password (Users.password r) = true)
    /\ fst (Planner.login_user email password d)
       = option_map (fun u => (Users.id u, Users.username u, Users.email u))
                    (fst (Auth.login_user email password d)).
Proof.
  intros B d email password U.
  pose proof (fun u => fetchone_by_email email d u U) as Fetch.
  unfold Planner.login_user, Auth.login_user, Planner.get_db_connection,
    Db.get_db_connection, Sql.connect.
  cbn [Sql.working Sql.close Sql.committed].
  destruct (Sql.fetchone (Sql.select_users_by_email email d)) as [r |] eqn:F.
  - pose proof (proj1 (Fetch r) eq_refl) as [Ir Er].
    assert (Same : forall u, In u (Sql.users d) -> Users.email u = email ->
                             u = r).
    { intros u Iu Eu.
      pose proof (proj2 (Fetch u) (conj Iu Eu)) as X. congruence. }
    destruct (checkpw password (Users.password r)) eqn:C; cbn [fst snd option_map].
    + refine (conj eq_refl (conj _ (conj _ (conj _ (conj eq_refl (conj _ eq_refl)))))).
      * intros ident. split.
        -- intros E. injection E as <-. exists r. now repeat split.
        -- intros (u & Iu & Eu & _ & ->). now rewrite (Same u Iu Eu).
      * intros N. now destruct (N r Ir).
      * intros u Iu Eu Cu. rewrite (Same u Iu Eu) in Cu. congruence.
      * intros r'. split.
        -- intros E. injection E as <-. now repeat split.
        -- intros (Iu & Eu & _). now rewrite (Same r' Iu Eu).
    + refine (conj eq_refl (conj _ (conj _ (conj _ (conj eq_refl (conj _ eq_refl)))))).
      * intros ident. split; [discriminate |].
        intros (u & Iu & Eu & Cu & _). rewrite (Same u Iu Eu) in Cu. congruence.
      * reflexivity.
      * reflexivity.
      * intros r'. split; [discriminate |].
        intros (Iu & Eu & Cu). rewrite (Same r' Iu Eu) in Cu. congruence.
  - assert (No : forall u, In u (Sql.users d) -> Users.email u <> email).
    { intros u Iu Eu.
      pose proof (proj2 (Fetch u) (conj Iu Eu)) as X. discriminate. }
    cbn [fst snd option_map].
    refine (conj eq_refl (conj _ (conj _ (conj _ (conj eq_refl (conj _ eq_refl)))))).
    + intros ident. split; [discriminate |].
      intros (u & Iu & Eu & _). now destruct (No u Iu).
    + reflexivity.
    + reflexivity.
    + intros r'. split; [discriminate |].
      intros (Iu & Eu & _). now destruct (No r' Iu).
Qed.

Lemma one_user_email_unique : Sql.email_unique Fixture.one_user.
Proof.
  unfold Sql.email_unique. cbn. constructor; [cbn; tauto | constructor].
Qed.

Lemma login_user_returns_identity_iff_verified_witness :
  Planner.login_user (H := Fixture.test_bcrypt) "alice@x.com" "secret1"
    Fixture.one_user
  = (Some (1, "alice"%string, "alice@x.com"%string), Fixture.one_user)
  /\ fst (Planner.login_user (H := Fixture.test_bcrypt) "alice@x.com" "wrong"
            Fixture.one_user) = None
  /\ fst (Planner.login_user (H := Fixture.test_bcrypt) "nobody@x.com" "secret1"
            Fixture.one_user) = None.
Proof.
  destruct (login_user_returns_identity_iff_verified Fixture.test_bcrypt
              Fixture.one_user "alice@x.com" "secret1" one_user_email_unique)
    as (S & I & _).
  split; [| split; reflexivity].
  apply injective_projections; cbn [fst snd].
  - apply I. exists Fixture.alice. cbn. repeat split. now left.
  - exact S.
Defined.

(** C5, evaluated where the main application departs from it: with
    ["alice"] registered, registering ["alice"] again under a fresh email
    succeeds and stores a second row with that username. *)
Theorem planner_register_user_accepts_taken_username :
  Planner.register_user (H := Fixture.test_bcrypt)
    "alice" "alice2@x.com" "secret2" "s2" Fixture.one_user
  = (Returned true,
     Sql.mk_db [Fixture.alice; Users.mk 2 "alice" "alice2@x.com" "s2$secret2"]
               2 [] 0)
  /\ ~ Sql.username_unique
         (snd (Planner.register_user (H := Fixture.test_bcrypt)
                 "alice" "alice2@x.com" "secret2" "s2" Fixture.one_user)).
Proof.
  split; [reflexivity |].
  cbn. unfold Sql.username_unique. cbn. intros ND.
  inversion ND as [| ? ? Nin _]. apply Nin. now left.
Qed.

(** C10, evaluated where the two implementations part: on a taken username
    with a fresh email [auth.py] refuses and leaves the table alone, the
    main application accepts and appends a row. *)
Theorem register_user_implementations_disagree :
  Auth.register_user (H := Fixture.test_bcrypt)
    "alice" "alice2@x.com" "secret2" "s2" Fixture.one_user
  = (false, Fixture.one_user)
  /\ fst (Planner.register_user (H := Fixture.test_bcrypt)
            "alice" "alice2@x.com" "secret2" "s2" Fixture.one_user)
     = Returned true
  /\ List.length
       (Sql.users (snd (Planner.register_user (H := Fixture.test_bcrypt)
                          "alice" "alice2@x.com" "secret2" "s2"
                          Fixture.one_user)))
     = 2%nat.
Proof. repeat split. Qed.

(** ** CSV export *)

Lemma fetch_tasks_complete (u : Z) (d : Sql.db) (t : Tasks.row) :
  In t (Planner.fetch_tasks u d) <-> In t (Sql.tasks d) /\ Tasks.user_id t = u.
Proof.
  unfold Planner.fetch_tasks, Planner.get_db_connection, Sql.connect,
    Sql.select_tasks_by_user. cbn [Sql.working].
  rewrite filter_In. now rewrite Z.eqb_eq.
Qed.




(** ** The scenario of the specification, run on the model *)

Example scenario_register_login :
  let d1 := snd (Planner.register_user (H := Fixture.test_bcrypt)
                   "alice" "alice@x.com" "secret1" "s1" Sql.empty) in
  d1 = Fixture.one_user
  /\ fst (Planner.login_user (H := Fixture.test_bcrypt)
            "alice@x.com" "secret1" d1)
     = Some (1, "alice"%string, "alice@x.com"%string).
Proof. split; reflexivity. Qed.

Example scenario_task_lifecycle :
  let d2 := Planner.add_task 1 "Read chapter 1" (Date.mk 2024 1 1) "High"
              Fixture.one_user in
  let d3 := Planner.update_overdue_tasks 1 Fixture.june_first d2 in
  let d4 := Planner.display_tasks (Planner.fetch_tasks 1 d3) 1
              (Some (Planner.comp 1)) d3 in
  let d5 := Planner.update_overdue_tasks 1 Fixture.june_first d4 in
  option_map Tasks.status (Sql.find_task 1 d2) = Some "Pending"%string
  /\ option_map Tasks.status (Sql.find_task 1 d3) = Some "Overdue"%string
  /\ option_map Tasks.status (Sql.find_task 1 d4) = Some "Completed"%string
  /\ option_map Tasks.status (Sql.find_task 1 d5) = Some "Completed"%string.
Proof. repeat split. Qed.

Example export_csv_of_store :
  Planner.export_csv (fun cell => cell) 1 Fixture.store
  = Some [ ["id"; "user_id"; "task"; "due_date"; "priority"; "status"];
           ["1"; "1"; "Read chapter 1"; "2024-01-01"; "High"; "Pending"];
           ["2"; "1"; "Someday"; EmptyString; "Medium"; "Pending"];
           ["4"; "1"; "Old homework"; "2023-12-01"; "Low"; "Completed"]
         ]%string.
Proof. reflexivity. Qed.

Example isoformat_2024_01_01 :
  Date.isoformat (Date.mk 2024 1 1) = "2024-01-01"%string.
Proof. reflexivity. Qed.

Example isoformat_0987_12_31 :
  Date.isoformat (Date.mk 987 12 31) = "0987-12-31"%string.
Proof. reflexivity. Qed.

Example yesterday_of_march_first_leap :
  Date.yesterday (Date.mk 2024 3 1) = Some (Date.mk 2024 2 29).
Proof. reflexivity. Qed.

Example yesterday_of_date_min : Date.yesterday (Date.mk 1 1 1) = None.
Proof. reflexivity. Qed.

(* ================================================================== *)
(** * Further properties of the code *)

(** ** The buttons of the task list *)

Section RowButtons.

Lemma display_reruns_false (df : list Tasks.row) (u : Z)
    (pressed : option Planner.button) (d : Sql.db) :
  Script.display_reruns df pressed = false ->
  Planner.display_tasks df u pressed d = d.
Proof.
  unfold Planner.display_tasks.
  induction df as [| row rest IH];
    cbn [Script.display_reruns Planner.display_rows]; [reflexivity |].
  destruct (negb _ && _); [discriminate |].
  destruct (Planner.clicked pressed (Planner.del _)); [discriminate |].
  exact IH.
Qed.

(** The complete button of task [i] is on the page when a displayed row
    has that id and is not Completed; clicking it runs the UPDATE. *)
Lemma display_tasks_comp_hit (df : list Tasks.row) (u i : Z) (d : Sql.db) :
  (exists row, In row df /\ Tasks.id row = i /\
               Tasks.status row <> "Completed"%string) ->
  Planner.display_tasks df u (Some (Planner.comp i)) d
  = Sql.update_status "Completed" i u d
  /\ Script.display_reruns df (Some (Planner.comp i)) = true.
Proof.
  unfold Planner.display_tasks.
  induction df as [| row rest IH];
    cbn [Script.display_reruns Planner.display_rows Planner.clicked
         Planner.button_eqb];
    intros (r & I & E & S); [contradiction |].
  destruct (Z.eqb_spec i (Tasks.id row)) as [Ei | Ni].
  - destruct (String.eqb_spec (Tasks.status row) "Completed") as [Ec | Nc];
      cbn [negb andb].
    + destruct I as [-> | I]; [contradiction |]. apply IH. eauto.
    + rewrite Ei. split; reflexivity.
  - rewrite andb_false_r. destruct I as [-> | I]; [congruence |].
    apply IH. eauto.
Qed.

Lemma display_tasks_del_hit (df : list Tasks.row) (u i : Z) (d : Sql.db) :
  (exists row, In row df /\ Tasks.id row = i) ->
  Planner.display_tasks df u (Some (Planner.del i)) d = Sql.delete_task i u d
  /\ Script.display_reruns df (Some (Planner.del i)) = true.
Proof.
  unfold Planner.display_tasks.
  induction df as [| row rest IH];
    cbn [Script.display_reruns Planner.display_rows Planner.clicked
         Planner.button_eqb];
    intros (r & I & E); [contradiction |].
  rewrite andb_false_r.
  destruct (Z.eqb_spec i (Tasks.id row)) as [Ei | Ni].
  - rewrite Ei. split; reflexivity.
  - destruct I as [-> | I]; [congruence |]. apply IH. eauto.
Qed.

Lemma display_reruns_comp_miss (df : list Tasks.row) (i : Z) :
  (forall row, In row df -> Tasks.id row = i ->
               Tasks.status row = "Completed"%string) ->
  Script.display_reruns df (Some (Planner.comp i)) = false.
Proof.
  induction df as [| row rest IH];
    cbn [Script.display_reruns Planner.clicked Planner.button_eqb];
    intros A; [reflexivity |].
  destruct (Z.eqb_spec i (Tasks.id row)) as [Ei | Ni].
  - rewrite (A row) by (now left || easy). cbn.
    apply IH. intros r I. apply A. now right.
  - rewrite andb_false_r. apply IH. intros r I. apply A. now right.
Qed.

Lemma display_reruns_del_miss (df : list Tasks.row) (i : Z) :
  (forall row, In row df -> Tasks.id row <> i) ->
  Script.display_reruns df (Some (Planner.del i)) = false.
Proof.
  induction df as [| row rest IH];
    cbn [Script.display_reruns Planner.clicked Planner.button_eqb];
    intros A; [reflexivity |].
  rewrite andb_false_r.
  destruct (Z.eqb_spec i (Tasks.id row)) as [Ei | Ni].
  - now destruct (A row (or_introl eq_refl)).
  - apply IH. intros r I. apply A. now right.
Qed.

Lemma display_reruns_none (df : list Tasks.row) :
  Script.display_reruns df None = false.
Proof.
  induction df as [| row rest IH]; cbn; [reflexivity |].
  now rewrite andb_false_r.
Qed.

(** The rows of the filtered data frame, in terms of the stored ones. *)
Lemma in_filtered (to_datetime : option string -> option string)
    (u : Z) (f : string) (d : Sql.db) (row : Tasks.row) :
  In row (Planner.filter_status f
            (Planner.coerce_due_date to_datetime (Planner.fetch_tasks u d)))
  <-> exists t, In t (Sql.tasks d) /\ Tasks.user_id t = u /\
                (f = "All"%string \/ Tasks.status t = f) /\
                row = Tasks.mk (Tasks.id t) (Tasks.user_id t) (Tasks.task t)
                               (to_datetime (Tasks.due_date t))
                               (Tasks.priority t) (Tasks.status t).
Proof.
  unfold Planner.filter_status, Planner.coerce_due_date.
  destruct (String.eqb_spec f "All") as [Ef | Nf].
  - rewrite in_map_iff. split.
    + intros (t & <- & I). apply fetch_tasks_complete in I as [I E].
      exists t. repeat split; auto.
    + intros (t & I & E & _ & ->). exists t. split; [reflexivity |].
      now apply fetch_tasks_complete.
  - rewrite filter_In, in_map_iff. split.
    + intros ((t & <- & I) & S). cbn in S. apply String.eqb_eq in S.
      apply fetch_tasks_complete in I as [I E].
      exists t. repeat split; auto.
    + intros (t & I & E & [F | S] & ->); [contradiction |]. split.
      * exists t. split; [reflexivity |]. now apply fetch_tasks_complete.
      * cbn. now apply String.eqb_eq.
Qed.

Lemma page_display_unfold (to_datetime : option string -> option string)
    (u : Z) (f : string) (pressed : option Planner.button) (d : Sql.db) :
  Planner.page_display to_datetime u f pressed d
  = Planner.display_tasks
      (Planner.filter_status f
         (Planner.coerce_due_date to_datetime (Planner.fetch_tasks u d)))
      u pressed d.
Proof.
  unfold Planner.page_display.
  destruct (Planner.fetch_tasks u d) as [| r l] eqn:F; [| reflexivity].
  unfold Planner.filter_status, Planner.coerce_due_date. cbn [map].
  now destruct (String.eqb f "All").
Qed.

Lemma find_task_update_status_other (s : string) (i j u : Z) (d : Sql.db) :
  j <> i ->
  Sql.find_task j (Sql.update_status s i u d) = Sql.find_task j d.
Proof.
  intros N. rewrite find_task_update_status.
  destruct (Sql.find_task j d) as [r |] eqn:F; [| reflexivity].
  apply find_some_key in F as [_ K]. cbn [option_map].
  unfold Sql.set_status_where, Sql.owned_row.
  now rewrite (proj2 (Z.eqb_neq (Tasks.id r) i)) by congruence.
Qed.

Lemma find_task_delete_other (i j u : Z) (d : Sql.db) :
  j <> i ->
  Sql.find_task j (Sql.delete_task i u d) = Sql.find_task j d.
Proof.
  intros N. unfold Sql.find_task, Sql.delete_task. cbn [Sql.tasks].
  induction (Sql.tasks d) as [| r l IH]; cbn [filter find]; [reflexivity |].
  unfold Sql.owned_row at 1.
  destruct (Z.eqb_spec (Tasks.id r) i) as [E | NE]; cbn [andb negb].
  - destruct (Tasks.user_id r =? u); cbn [negb find].
    + rewrite (proj2 (Z.eqb_neq (Tasks.id r) j)) by congruence. exact IH.
    + now rewrite IH.
  - cbn [find]. now rewrite IH.
Qed.

Lemma delete_task_length (i u : Z) (d : Sql.db) (t : Tasks.row) :
  Sql.primary_key d -> In t (Sql.tasks d) ->
  Tasks.id t = i -> Tasks.user_id t = u ->
  S (List.length (Sql.tasks (Sql.delete_task i u d)))
  = List.length (Sql.tasks d).
Proof.
  unfold Sql.primary_key, Sql.delete_task. cbn [Sql.tasks].
  induction (Sql.tasks d) as [| r l IH]; cbn [In map filter List.length];
    [tauto |].
  intros ND I Ei Eu. inversion ND as [| ? ? Nin ND']; subst.
  destruct I as [-> | I].
  - unfold Sql.owned_row at 1. rewrite !Z.eqb_refl. cbn [andb negb].
    f_equal. f_equal. apply filter_all. intros r Ir.
    unfold Sql.owned_row.
    destruct (Z.eqb_spec (Tasks.id r) (Tasks.id t)) as [E | NE];
      [| reflexivity].
    exfalso. apply Nin. rewrite <- E. now apply in_map.
  - replace (Sql.owned_row (Tasks.id t) (Tasks.user_id t) r) with false.
    + cbn [negb List.length]. f_equal. now apply IH.
    + unfold Sql.owned_row.
      destruct (Z.eqb_spec (Tasks.id r) (Tasks.id t)) as [E | NE];
        [| reflexivity].
      exfalso. apply Nin. rewrite E. now apply in_map.
Qed.

End RowButtons.

(** *** The frame by position *)

(** [Frame.labelled] is the positional reading: each of its fields is the
    value that [SELECT *] puts at the place of that label. *)
Lemma labelled_by_position (l : Frame.layout) (r : Tasks.row) :
  Frame.at_label (Frame.select_star l r) "id"
  = Frame.int (Frame.id (Frame.labelled l r))
  /\ Frame.at_label (Frame.select_star l r) "user_id"
     = Frame.int (Frame.user_id (Frame.labelled l r))
  /\ Frame.at_label (Frame.select_star l r) "task"
     = Frame.text (Frame.task (Frame.labelled l r))
  /\ Frame.at_label (Frame.select_star l r) "due_date"
     = match Frame.due_date (Frame.labelled l r) with
       | Some s => Frame.text s
       | None => Frame.null
       end
  /\ Frame.at_label (Frame.select_star l r) "priority"
     = match Frame.priority (Frame.labelled l r) with
       | Some s => Frame.text s
       | None => Frame.null
       end
  /\ Frame.at_label (Frame.select_star l r) "status"
     = Frame.text (Frame.status (Frame.labelled l r)).
Proof. destruct l; repeat split. Qed.

(** The two column orders are the ones that the schema statements leave on
    a fresh file and on a file created by [db.py]. *)
Lemma layouts_from_schema :
  Schema.tasks_table (Schema.startup Schema.fresh)
  = Some (Frame.columns Frame.as_planner)
  /\ Schema.tasks_table (Schema.startup (Schema.db_create_tables Schema.fresh))
     = Some (Frame.columns Frame.as_db_py).
Proof. split; reflexivity. Qed.

Lemma in_frame_filtered (l : Frame.layout)
    (to_datetime : option string -> option string)
    (u : Z) (f : string) (d : Sql.db) (row : Frame.row) :
  In row (Frame.filter_status f
            (Frame.coerce_due_date to_datetime (Frame.data_frame l u d)))
  <-> exists t, In t (Sql.tasks d) /\ Tasks.user_id t = u /\
                (f = "All"%string \/ Frame.status (Frame.labelled l t) = f) /\
                row = Frame.mk (Frame.id (Frame.labelled l t))
                        (Frame.user_id (Frame.labelled l t))
                        (Frame.task (Frame.labelled l t))
                        (to_datetime (Frame.due_date (Frame.labelled l t)))
                        (Frame.priority (Frame.labelled l t))
                        (Frame.status (Frame.labelled l t)).
Proof.
  unfold Frame.filter_status, Frame.coerce_due_date, Frame.data_frame,
    Planner.get_db_connection, Sql.connect, Sql.select_tasks_by_user.
  cbn [Sql.working]. rewrite map_map.
  destruct (String.eqb_spec f "All") as [Ef | Nf].
  - rewrite in_map_iff. split.
    + intros (t & <- & I). apply filter_In in I as [I E].
      apply Z.eqb_eq in E. exists t. repeat split; auto.
    + intros (t & I & E & _ & ->). exists t. split; [reflexivity |].
      apply filter_In. split; [assumption | now apply Z.eqb_eq].
  - rewrite filter_In, in_map_iff. split.
    + intros ((t & <- & I) & S). cbn in S. apply String.eqb_eq in S.
      apply filter_In in I as [I E]. apply Z.eqb_eq in E.
      exists t. repeat split; auto.
    + intros (t & I & E & [F | S] & ->); [contradiction |]. split.
      * exists t. split; [reflexivity |].
        apply filter_In. split; [assumption | now apply Z.eqb_eq].
      * cbn. now apply String.eqb_eq.
Qed.

Lemma frame_page_display_unfold (l : Frame.layout)
    (to_datetime : option string -> option string)
    (u : Z) (f : string) (pressed : option Planner.button) (d : Sql.db) :
  Frame.page_display to_datetime l u f pressed d
  = Frame.display_tasks
      (Frame.filter_status f
         (Frame.coerce_due_date to_datetime (Frame.data_frame l u d)))
      u pressed d.
Proof.
  unfold Frame.page_display.
  destruct (Frame.data_frame l u d) as [| r df] eqn:F; [| reflexivity].
  unfold Frame.filter_status, Frame.coerce_due_date. cbn [map].
  now destruct (String.eqb f "All").
Qed.

Lemma frame_display_tasks_comp_hit (df : list Frame.row) (u i : Z)
    (d : Sql.db) :
  (exists row, In row df /\ Frame.id row = i /\
               Frame.status row <> "Completed"%string) ->
  Frame.display_tasks df u (Some (Planner.comp i)) d
  = Sql.update_status "Completed" i u d.
Proof.
  unfold Frame.display_tasks.
  induction df as [| row rest IH];
    cbn [Frame.display_rows Planner.clicked Planner.button_eqb];
    intros (r & I & E & S); [contradiction |].
  destruct (Z.eqb_spec i (Frame.id row)) as [Ei | Ni].
  - destruct (String.eqb_spec (Frame.status row) "Completed") as [Ec | Nc];
      cbn [negb andb].
    + destruct I as [-> | I]; [contradiction |]. apply IH. eauto.
    + rewrite Ei. reflexivity.
  - rewrite andb_false_r. destruct I as [-> | I]; [congruence |].
    apply IH. eauto.
Qed.

(** The loop reads only [id] and [status]: frames that agree on those two
    labels are displayed alike. *)
Lemma frame_display_rows_agree (df : list Frame.row) (df' : list Tasks.row)
    (u : Z) (pressed : option Planner.button) (conn : Sql.connection) :
  map (fun r => (Frame.id r, Frame.status r)) df
  = map (fun r => (Tasks.id r, Tasks.status r)) df' ->
  Frame.display_rows df u pressed conn
  = Planner.display_rows df' u pressed conn.
Proof.
  revert df'. induction df as [| r df IH]; intros [| r' df'] E;
    try discriminate; [reflexivity |].
  cbn in E. injection E as Ei Es E.
  cbn [Frame.display_rows Planner.display_rows]. rewrite Ei, Es.
  now rewrite (IH df' E).
Qed.

Lemma frames_agree_as_planner
    (to_datetime : option string -> option string) (f : string)
    (rows : list Tasks.row) :
  map (fun r => (Frame.id r, Frame.status r))
      (Frame.filter_status f
         (Frame.coerce_due_date to_datetime
            (map (Frame.labelled Frame.as_planner) rows)))
  = map (fun r => (Tasks.id r, Tasks.status r))
        (Planner.filter_status f
           (Planner.coerce_due_date to_datetime rows)).
Proof.
  unfold Frame.filter_status, Planner.filter_status, Frame.coerce_due_date,
    Planner.coerce_due_date.
  destruct (String.eqb f "All").
  - rewrite !map_map. reflexivity.
  - induction rows as [| r rows IH]; [reflexivity |].
    cbn [map filter Frame.status Frame.labelled Tasks.status].
    destruct (String.eqb (Tasks.status r) f); cbn [map];
      now rewrite IH.
Qed.

(** On a table in the application's own column order the positional frame
    is the by-name one: the page displays as [Planner.page_display] says. *)
Lemma frame_page_display_as_planner
    (to_datetime : option string -> option string)
    (u : Z) (f : string) (pressed : option Planner.button) (d : Sql.db) :
  Frame.page_display to_datetime Frame.as_planner u f pressed d
  = Planner.page_display to_datetime u f pressed d.
Proof.
  rewrite frame_page_display_unfold, page_display_unfold.
  unfold Frame.display_tasks, Planner.display_tasks. f_equal.
  apply frame_display_rows_agree.
  unfold Frame.data_frame, Planner.fetch_tasks.
  apply frames_agree_as_planner.
Qed.

(** X1: on the page of user [u], on either column order of the [tasks]
    table, clicking the complete button of one of [u]'s tasks that the page
    shows (the value it reads as the status passes the filter) with a
    complete button (that value is not "Completed") leaves that task with
    status "Completed" and its other columns as before, and every other
    task as it was.  In the application's own column order the value read
    as the status is the stored status, in [db.py]'s order it is the
    stored priority. *)
Theorem complete_button_completes_the_task :
  forall (l : Frame.layout) (to_datetime : option string -> option string)
         (u : Z) (f : string) (d : Sql.db) (i : Z) (t : Tasks.row),
    Sql.find_task i d = Some t ->
    Tasks.user_id t = u ->
    Frame.status (Frame.labelled l t) <> "Completed"%string ->
    f = "All"%string \/ Frame.status (Frame.labelled l t) = f ->
    Sql.find_task i
      (Frame.page_display to_datetime l u f (Some (Planner.comp i)) d)
    = Some (Tasks.mk (Tasks.id t) (Tasks.user_id t) (Tasks.task t)
                     (Tasks.due_date t) (Tasks.priority t) "Completed")
    /\ (forall j, j <> i ->
          Sql.find_task j
            (Frame.page_display to_datetime l u f (Some (Planner.comp i)) d)
          = Sql.find_task j d)
    /\ Frame.status (Frame.labelled Frame.as_planner t) = Tasks.status t
    /\ Frame.status (Frame.labelled Frame.as_db_py t) = Tasks.priority t.
Proof.
  intros l to_datetime u f d i t F Eu Ns Ef.
  pose proof (find_some_key i _ t F) as [I K].
  rewrite frame_page_display_unfold.
  rewrite (frame_display_tasks_comp_hit _ u i d).
  - split; [| split; [| split; reflexivity]].
    + rewrite find_task_update_status, F. cbn [option_map].
      unfold Sql.set_status_where, Sql.owned_row.
      rewrite (proj2 (Z.eqb_eq _ _) K), (proj2 (Z.eqb_eq _ _) Eu).
      reflexivity.
    + intros j N. now apply find_task_update_status_other.
  - eexists. split; [apply in_frame_filtered; exists t; eauto |].
    split; [destruct l; exact K | exact Ns].
Qed.

Lemma complete_button_completes_the_task_witness :
  Sql.find_task 1
    (Frame.page_display (fun cell => cell) Frame.as_planner 1 "Pending"
       (Some (Planner.comp 1)) Fixture.store)
  = Some (Tasks.mk 1 1 "Read chapter 1" (Some "2024-01-01"%string) "High"
                   "Completed").
Proof.
  apply (complete_button_completes_the_task Frame.as_planner
           (fun cell => cell) 1 "Pending" Fixture.store 1
           Fixture.read_chapter).
  - reflexivity.
  - reflexivity.
  - discriminate.
  - now right.
Defined.

Example complete_button_on_db_py_order :
  Frame.filter_status "Pending"
    (Frame.coerce_due_date (fun cell => cell)
       (Frame.data_frame Frame.as_db_py 1 Fixture.store)) = []
  /\ option_map Tasks.status
       (Sql.find_task 1
          (Frame.page_display (fun cell => cell) Frame.as_db_py 1 "All"
             (Some (Planner.comp 1)) Fixture.store))
     = Some "Completed"%string.
Proof. split; reflexivity. Qed.

(** X2: clicking the delete button of one of [u]'s displayed tasks removes
    exactly that row: its id is no longer found, the table is one row
    shorter, and every other task is found as before. *)
Theorem delete_button_removes_the_task :
  forall (to_datetime : option string -> option string)
         (u : Z) (f : string) (d : Sql.db) (i : Z) (t : Tasks.row),
    Sql.primary_key d ->
    Sql.find_task i d = Some t ->
    Tasks.user_id t = u ->
    f = "All"%string \/ Tasks.status t = f ->
    Sql.find_task i
      (Planner.page_display to_datetime u f (Some (Planner.del i)) d) = None
    /\ S (List.length
            (Sql.tasks
               (Planner.page_display to_datetime u f
                  (Some (Planner.del i)) d)))
       = List.length (Sql.tasks d)
    /\ (forall j, j <> i ->
          Sql.find_task j
            (Planner.page_display to_datetime u f (Some (Planner.del i)) d)
          = Sql.find_task j d).
Proof.
  intros to_datetime u f d i t PK F Eu Ef.
  pose proof (find_some_key i _ t F) as [I K].
  rewrite page_display_unfold.
  destruct (display_tasks_del_hit
              (Planner.filter_status f
                 (Planner.coerce_due_date to_datetime
                    (Planner.fetch_tasks u d))) u i d) as [E _].
  { eexists. split; [apply in_filtered; exists t; eauto |]. exact K. }
  rewrite E. split; [| split].
  - rewrite (find_task_delete d i i u t PK F).
    unfold Sql.owned_row. now rewrite K, Eu, !Z.eqb_refl.
  - now apply (delete_task_length i u d t).
  - intros j N. now apply find_task_delete_other.
Qed.

Lemma delete_button_removes_the_task_witness :
  Sql.find_task 4
    (Planner.page_display (fun cell => cell) 1 "All"
       (Some (Planner.del 4)) Fixture.store) = None.
Proof.
  apply (delete_button_removes_the_task (fun cell => cell) 1 "All"
           Fixture.store 4 Fixture.done_task).
  - exact store_primary_key.
  - reflexivity.
  - reflexivity.
  - now left.
Defined.

(** X3: a button that is not on the page does nothing.  When no task of
    [u] with id [i] passes the status filter (the id is unknown, belongs to
    somebody else, or the row is filtered out), a click carrying the key of
    its complete or delete button leaves the store unchanged; so does the
    complete key of a task that is already Completed. *)
Theorem absent_buttons_do_nothing :
  forall (to_datetime : option string -> option string)
         (u : Z) (f : string) (d : Sql.db) (i : Z),
    (forall t, In t (Sql.tasks d) -> Tasks.user_id t = u -> Tasks.id t = i ->
               (f <> "All"%string /\ Tasks.status t <> f)
               \/ Tasks.status t = "Completed"%string) ->
    Planner.page_display to_datetime u f (Some (Planner.comp i)) d = d
    /\ ((forall t, In t (Sql.tasks d) -> Tasks.user_id t = u ->
                   Tasks.id t = i ->
                   f <> "All"%string /\ Tasks.status t <> f) ->
        Planner.page_display to_datetime u f (Some (Planner.del i)) d = d).
Proof.
  intros to_datetime u f d i A. rewrite !page_display_unfold. split.
  - apply display_reruns_false, display_reruns_comp_miss.
    intros row I E. apply in_filtered in I as (t & It & Eu & Ef & ->).
    cbn in E |- *.
    destruct (A t It Eu E) as [[NA NS] | C]; [| exact C].
    destruct Ef; contradiction.
  - intros B. apply display_reruns_false, display_reruns_del_miss.
    intros row I E. apply in_filtered in I as (t & It & Eu & Ef & ->).
    cbn in E.
    destruct (B t It Eu E) as [NA NS]. destruct Ef; contradiction.
Qed.

Lemma absent_buttons_do_nothing_witness :
  Planner.page_display (fun cell => cell) 1 "All"
    (Some (Planner.comp 4)) Fixture.store = Fixture.store.
Proof.
  apply (absent_buttons_do_nothing (fun cell => cell) 1 "All"
           Fixture.store 4).
  cbn. intros t [<- | [<- | [<- | [<- | []]]]] Eu Ei;
    try discriminate. now right.
Defined.

(** ** Sequences of task-store actions *)

Section Sequences.

Lemma set_status_same (t : Tasks.row) : Tasks.set_status (Tasks.status t) t = t.
Proof. now destruct t. Qed.

Lemma set_status_twice (s s' : string) (t : Tasks.row) :
  Tasks.set_status s' (Tasks.set_status s t) = Tasks.set_status s' t.
Proof. reflexivity. Qed.

(** One action, seen from one key: the row is untouched, reconciled from
    Pending to Overdue, completed, or deleted. *)
Lemma run_find_task_status (a : Planner.action) (d : Sql.db) (i : Z)
    (t : Tasks.row) :
  Sql.primary_key d -> Sql.find_task i d = Some t ->
  Sql.find_task i (Planner.run a d) = None
  \/ Sql.find_task i (Planner.run a d) = Some t
  \/ (Sql.find_task i (Planner.run a d) = Some (Tasks.set_status "Overdue" t)
      /\ Tasks.status t = "Pending"%string)
  \/ Sql.find_task i (Planner.run a d) = Some (Tasks.set_status "Completed" t).
Proof.
  intros PK F. destruct a as [u today | df u pressed | u text due p];
    cbn [Planner.run].
  - rewrite update_overdue_tasks_unfold, find_task_update_overdue, F.
    cbn [option_map]. unfold Sql.set_overdue.
    destruct (Sql.selected _) eqn:S; [| now (right; left)].
    apply overdue_where_selected in S as (_ & S & _). right; right; left.
    now split.
  - destruct (display_tasks_cases df u pressed d)
      as [E | [(r & _ & _ & _ & E) | (r & _ & _ & E)]]; rewrite E.
    + now (right; left).
    + rewrite find_task_update_status, F. cbn [option_map].
      unfold Sql.set_status_where.
      destruct (Sql.owned_row _ _ _); [now (right; right; right) |].
      now (right; left).
    + rewrite (find_task_delete d i (Tasks.id r) u t PK F).
      destruct (Sql.owned_row _ _ _); [now left | now (right; left)].
  - right; left. rewrite add_task_unfold.
    unfold Sql.find_task, Sql.insert_task. cbn [Sql.tasks].
    now apply find_app_some.
Qed.

(** The ids after an action are ids from before, or the one fresh id, which
    lies above the sequence counter. *)
Lemma run_ids (a : Planner.action) (d : Sql.db) (j : Z) :
  In j (map Tasks.id (Sql.tasks (Planner.run a d))) ->
  In j (map Tasks.id (Sql.tasks d)) \/ Sql.tasks_seq d < j.
Proof.
  destruct a as [u today | df u pressed | u text due p]; cbn [Planner.run].
  - rewrite update_overdue_tasks_unfold. cbn. rewrite map_map.
    rewrite (map_ext _ Tasks.id (set_overdue_id u (Date.isoformat today))).
    now left.
  - destruct (display_tasks_cases df u pressed d)
      as [E | [(r & _ & _ & _ & E) | (r & _ & _ & E)]]; rewrite E.
    + now left.
    + cbn. rewrite map_map.
      rewrite (map_ext _ Tasks.id
                 (set_status_where_id "Completed" (Tasks.id r) u)).
      now left.
    + cbn. intros I. left. now apply in_map_filter in I.
  - rewrite add_task_unfold. cbn. rewrite map_app, in_app_iff. cbn.
    intros [I | [<- | []]]; [now left | right].
    unfold Sql.next_rowid. lia.
Qed.

Lemma run_tasks_seq (a : Planner.action) (d : Sql.db) :
  Sql.tasks_seq d <= Sql.tasks_seq (Planner.run a d).
Proof.
  destruct a as [u today | df u pressed | u text due p]; cbn [Planner.run].
  - rewrite update_overdue_tasks_unfold. cbn. lia.
  - destruct (display_tasks_cases df u pressed d)
      as [E | [(r & _ & _ & _ & E) | (r & _ & _ & E)]]; rewrite E; cbn; lia.
  - rewrite add_task_unfold. cbn. unfold Sql.next_rowid. lia.
Qed.

Lemma run_sequence_covers (a : Planner.action) (d : Sql.db) :
  Script.sequence_covers d -> Script.sequence_covers (Planner.run a d).
Proof.
  intros C j.
  destruct a as [u today | df u pressed | u text due p]; cbn [Planner.run].
  - rewrite update_overdue_tasks_unfold. cbn. rewrite map_map.
    rewrite (map_ext _ Tasks.id (set_overdue_id u (Date.isoformat today))).
    apply C.
  - destruct (display_tasks_cases df u pressed d)
      as [E | [(r & _ & _ & _ & E) | (r & _ & _ & E)]]; rewrite E.
    + apply C.
    + cbn. rewrite map_map.
      rewrite (map_ext _ Tasks.id
                 (set_status_where_id "Completed" (Tasks.id r) u)).
      apply C.
    + cbn. intros I. apply in_map_filter in I. now apply C.
  - rewrite add_task_unfold. cbn. rewrite map_app, in_app_iff. cbn.
    unfold Sql.next_rowid.
    intros [I | [<- | []]]; [| lia].
    apply C in I. lia.
Qed.

(** A key that is free and not above the counter stays free. *)
Lemma run_find_task_none (a : Planner.action) (d : Sql.db) (i : Z) :
  i <= Sql.tasks_seq d -> Sql.find_task i d = None ->
  Sql.find_task i (Planner.run a d) = None.
Proof.
  intros L F. unfold Sql.find_task. apply find_absent_key. intros I.
  destruct (run_ids _ _ _ I) as [I' | G]; [| lia].
  apply in_map_iff in I' as (r & E & Ir).
  apply (find_none _ _ F) in Ir. cbn in Ir.
  rewrite E, Z.eqb_refl in Ir. discriminate.
Qed.

Lemma run_all_cons (a : Planner.action) (l : list Planner.action) (d : Sql.db) :
  Script.run_all (a :: l) d = Script.run_all l (Planner.run a d).
Proof. reflexivity. Qed.

Lemma run_all_invariants (l : list Planner.action) (d : Sql.db) :
  Sql.primary_key d -> Script.sequence_covers d ->
  Sql.primary_key (Script.run_all l d)
  /\ Script.sequence_covers (Script.run_all l d)
  /\ Sql.tasks_seq d <= Sql.tasks_seq (Script.run_all l d).
Proof.
  revert d. induction l as [| a l IH]; intros d PK C.
  - cbn. repeat split; [assumption | assumption | lia].
  - rewrite run_all_cons.
    destruct (IH (Planner.run a d)) as (P & Q & M);
      [now apply run_primary_key | now apply run_sequence_covers |].
    pose proof (run_tasks_seq a d). repeat split; [assumption.. | lia].
Qed.

(** Following one task through any sequence of actions: its key either
    becomes free for good or holds the same task, whose status has only
    moved forward. *)
Lemma run_all_tracks (t : Tasks.row) (i : Z) (l : list Planner.action) :
  forall d : Sql.db,
    Sql.primary_key d -> Script.sequence_covers d -> i <= Sql.tasks_seq d ->
    (Sql.find_task i d = None
     \/ exists s, Sql.find_task i d = Some (Tasks.set_status s t)
                  /\ (Tasks.status t = "Completed"%string ->
                      s = "Completed"%string)
                  /\ (Tasks.status t <> "Pending"%string ->
                      s <> "Pending"%string)) ->
    Sql.find_task i (Script.run_all l d) = None
    \/ exists s, Sql.find_task i (Script.run_all l d)
                 = Some (Tasks.set_status s t)
                 /\ (Tasks.status t = "Completed"%string ->
                     s = "Completed"%string)
                 /\ (Tasks.status t <> "Pending"%string ->
                     s <> "Pending"%string).
Proof.
  induction l as [| a l IH]; intros d PK C L St; [exact St |].
  rewrite run_all_cons. apply IH.
  - now apply run_primary_key.
  - now apply run_sequence_covers.
  - pose proof (run_tasks_seq a d). lia.
  - destruct St as [N | (s & F & P1 & P2)].
    + left. now apply run_find_task_none.
    + destruct (run_find_task_status a d i _ PK F)
        as [N | [E | [[E Ep] | E]]].
      * now left.
      * right. exists s. now repeat split.
      * right. exists "Overdue"%string. rewrite set_status_twice in E.
        cbn in Ep. subst s. split; [assumption |]. split.
        -- intros Ec. specialize (P1 Ec). discriminate.
        -- intros _. discriminate.
      * right. exists "Completed"%string. rewrite set_status_twice in E.
        split; [assumption |]. split; [reflexivity | discriminate].
Qed.

Lemma tracks_from_start (d : Sql.db) (i : Z) (t : Tasks.row)
    (l : list Planner.action) :
  Sql.primary_key d -> Script.sequence_covers d ->
  Sql.find_task i d = Some t ->
  Sql.find_task i (Script.run_all l d) = None
  \/ exists s, Sql.find_task i (Script.run_all l d)
               = Some (Tasks.set_status s t)
               /\ (Tasks.status t = "Completed"%string ->
                   s = "Completed"%string)
               /\ (Tasks.status t <> "Pending"%string ->
                   s <> "Pending"%string).
Proof.
  intros PK C F. apply run_all_tracks; try assumption.
  - apply C. apply find_some_key in F as [I K]. rewrite <- K.
    now apply in_map.
  - right. exists (Tasks.status t). rewrite set_status_same.
    now repeat split.
Qed.

End Sequences.

Lemma store_sequence_covers : Script.sequence_covers Fixture.store.
Proof.
  intros i. cbn. intros [<- | [<- | [<- | [<- | []]]]]; lia.
Qed.

(** X4: the PRIMARY KEY constraint and the AUTOINCREMENT bound (no rowid in
    use exceeds the sequence counter) hold after any sequence of
    reconciliations, button clicks and added tasks, and the counter never
    goes down. *)
Theorem constraints_hold_after_any_sequence :
  forall (l : list Planner.action) (d : Sql.db),
    Sql.primary_key d -> Script.sequence_covers d ->
    Sql.primary_key (Script.run_all l d)
    /\ Script.sequence_covers (Script.run_all l d)
    /\ Sql.tasks_seq d <= Sql.tasks_seq (Script.run_all l d).
Proof. exact run_all_invariants. Qed.

Lemma constraints_hold_after_any_sequence_witness :
  Sql.primary_key
    (Script.run_all
       [Planner.Display [Fixture.done_task] 1 (Some (Planner.del 4));
        Planner.AddTask 1 "Revise" (Date.mk 2024 7 1) "Low";
        Planner.Reconcile 1 Fixture.june_first] Fixture.store).
Proof.
  apply (constraints_hold_after_any_sequence
           [Planner.Display [Fixture.done_task] 1 (Some (Planner.del 4));
            Planner.AddTask 1 "Revise" (Date.mk 2024 7 1) "Low";
            Planner.Reconcile 1 Fixture.june_first] Fixture.store).
  - exact store_primary_key.
  - exact store_sequence_covers.
Defined.

(** X5: an id denotes the same task for ever.  Whatever sequence of actions
    runs, also deletions followed by new tasks, a row found afterwards under
    the id of an earlier task has that task's id, owner, text, due date and
    priority: ids are never reassigned and those columns never rewritten. *)
Theorem task_identity_is_stable :
  forall (d : Sql.db) (i : Z) (t t' : Tasks.row) (l : list Planner.action),
    Sql.primary_key d -> Script.sequence_covers d ->
    Sql.find_task i d = Some t ->
    Sql.find_task i (Script.run_all l d) = Some t' ->
    Tasks.id t' = Tasks.id t
    /\ Tasks.user_id t' = Tasks.user_id t
    /\ Tasks.task t' = Tasks.task t
    /\ Tasks.due_date t' = Tasks.due_date t
    /\ Tasks.priority t' = Tasks.priority t.
Proof.
  intros d i t t' l PK C F F'.
  destruct (tracks_from_start d i t l PK C F) as [N | (s & E & _)];
    [congruence |].
  rewrite E in F'. injection F' as <-. apply set_status_fields.
Qed.

Lemma task_identity_is_stable_witness :
  Tasks.task Fixture.read_chapter = "Read chapter 1"%string
  /\ Tasks.due_date Fixture.read_chapter = Some "2024-01-01"%string.
Proof.
  destruct (task_identity_is_stable Fixture.store 1 Fixture.read_chapter
              (Tasks.set_status "Overdue" Fixture.read_chapter)
              [Planner.Display [Fixture.done_task] 1 (Some (Planner.del 4));
               Planner.AddTask 1 "Revise" (Date.mk 2024 7 1) "Low";
               Planner.Reconcile 1 Fixture.june_first])
    as (_ & _ & T & D & _).
  - exact store_primary_key.
  - exact store_sequence_covers.
  - reflexivity.
  - reflexivity.
  - split; [exact T | exact D].
Defined.

(** X6: a status only moves forward.  Through any sequence of actions a
    Completed task stays Completed (until it is deleted), and a task that
    has left Pending never returns to it. *)
Theorem status_only_moves_forward :
  forall (d : Sql.db) (i : Z) (t t' : Tasks.row) (l : list Planner.action),
    Sql.primary_key d -> Script.sequence_covers d ->
    Sql.find_task i d = Some t ->
    Sql.find_task i (Script.run_all l d) = Some t' ->
    (Tasks.status t = "Completed"%string ->
     Tasks.status t' = "Completed"%string)
    /\ (Tasks.status t <> "Pending"%string ->
        Tasks.status t' <> "Pending"%string).
Proof.
  intros d i t t' l PK C F F'.
  destruct (tracks_from_start d i t l PK C F) as [N | (s & E & P1 & P2)];
    [congruence |].
  rewrite E in F'. injection F' as <-. cbn. now split.
Qed.

Lemma status_only_moves_forward_witness :
  option_map Tasks.status
    (Sql.find_task 4
       (Script.run_all
          [Planner.Reconcile 1 Fixture.june_first;
           Planner.Display [Fixture.done_task] 1 (Some (Planner.comp 4));
           Planner.AddTask 1 "Revise" (Date.mk 2024 7 1) "Low";
           Planner.Reconcile 1 (Date.mk 2025 1 1)] Fixture.store))
  = Some "Completed"%string.
Proof.
  destruct (Sql.find_task 4 _) as [t' |] eqn:F; [| discriminate F].
  cbn [option_map]. f_equal.
  apply (status_only_moves_forward Fixture.store 4 Fixture.done_task t' _
           store_primary_key store_sequence_covers eq_refl F).
  reflexivity.
Defined.

(** ** The three statuses *)

Section Statuses.

Lemma run_statuses_known (a : Planner.action) (d : Sql.db) :
  Script.statuses_known d -> Script.statuses_known (Planner.run a d).
Proof.
  unfold Script.statuses_known. intros K.
  destruct a as [u today | df u pressed | u text due p]; cbn [Planner.run].
  - rewrite update_overdue_tasks_unfold. cbn. apply Forall_map.
    eapply Forall_impl; [| exact K]. intros r Kr. unfold Sql.set_overdue.
    destruct (Sql.selected _); [right; right; reflexivity | exact Kr].
  - destruct (display_tasks_cases df u pressed d)
      as [E | [(r & _ & _ & _ & E) | (r & _ & _ & E)]]; rewrite E.
    + exact K.
    + cbn. apply Forall_map.
      eapply Forall_impl; [| exact K]. intros x Kx.
      unfold Sql.set_status_where.
      destruct (Sql.owned_row _ _ _); [right; left; reflexivity | exact Kx].
    + cbn. rewrite Forall_forall in *. intros x I.
      apply filter_In in I as [I _]. now apply K.
  - rewrite add_task_unfold. cbn. apply Forall_app. split; [exact K |].
    constructor; [left; reflexivity | constructor].
Qed.

Lemma run_all_statuses_known (l : list Planner.action) (d : Sql.db) :
  Script.statuses_known d -> Script.statuses_known (Script.run_all l d).
Proof.
  revert d. induction l as [| a l IH]; intros d K; [exact K |].
  rewrite run_all_cons. now apply IH, run_statuses_known.
Qed.

Lemma filter_status_partition (df : list Tasks.row) :
  Forall (fun r => Script.known_status (Tasks.status r)) df ->
  (List.length (Planner.filter_status "Pending" df)
   + List.length (Planner.filter_status "Completed" df)
   + List.length (Planner.filter_status "Overdue" df))%nat
  = List.length df.
Proof.
  unfold Planner.filter_status. cbn [String.eqb Ascii.eqb Bool.eqb].
  induction 1 as [| r df Kr _ IH]; [reflexivity |].
  cbn [filter]. destruct Kr as [-> | [-> | ->]]; cbn; lia.
Qed.

End Statuses.

Lemma frame_filter_status_partition (df : list Frame.row) :
  Forall (fun r => Script.known_status (Frame.status r)) df ->
  (List.length (Frame.filter_status "Pending" df)
   + List.length (Frame.filter_status "Completed" df)
   + List.length (Frame.filter_status "Overdue" df))%nat
  = List.length df.
Proof.
  unfold Frame.filter_status. cbn [String.eqb Ascii.eqb Bool.eqb].
  induction 1 as [| r df Kr _ IH]; [reflexivity |].
  cbn [filter]. destruct Kr as [-> | [-> | ->]]; cbn; lia.
Qed.

(** X7: the status column only ever holds Pending, Completed or Overdue:
    after any sequence of actions on a store where that is so, it is still
    so.  On a [tasks] table in the application's own column order, where
    the page reads the stored status, the three status filters then split
    the tasks of a user with none left over; the filter "All" shows all of
    them on either column order. *)
Theorem statuses_stay_known_and_filters_partition :
  forall (to_datetime : option string -> option string)
         (acts : list Planner.action) (u : Z) (d : Sql.db),
    Script.statuses_known d ->
    Script.statuses_known (Script.run_all acts d)
    /\ (List.length
          (Frame.filter_status "Pending"
             (Frame.coerce_due_date to_datetime
                (Frame.data_frame Frame.as_planner u
                   (Script.run_all acts d))))
        + List.length
            (Frame.filter_status "Completed"
               (Frame.coerce_due_date to_datetime
                  (Frame.data_frame Frame.as_planner u
                     (Script.run_all acts d))))
        + List.length
            (Frame.filter_status "Overdue"
               (Frame.coerce_due_date to_datetime
                  (Frame.data_frame Frame.as_planner u
                     (Script.run_all acts d)))))%nat
       = List.length
           (Sql.select_tasks_by_user u (Script.run_all acts d))
    /\ (forall l : Frame.layout,
          Frame.filter_status "All"
            (Frame.coerce_due_date to_datetime
               (Frame.data_frame l u (Script.run_all acts d)))
          = Frame.coerce_due_date to_datetime
              (Frame.data_frame l u (Script.run_all acts d))
          /\ List.length (Frame.data_frame l u (Script.run_all acts d))
             = List.length
                 (Sql.select_tasks_by_user u (Script.run_all acts d))).
Proof.
  intros to_datetime acts u d K.
  pose proof (run_all_statuses_known acts d K) as K'.
  split; [exact K' |]. split.
  - rewrite frame_filter_status_partition.
    + unfold Frame.coerce_due_date, Frame.data_frame,
        Planner.get_db_connection, Sql.connect. cbn [Sql.working].
      now rewrite !length_map.
    + unfold Frame.coerce_due_date, Frame.data_frame,
        Planner.get_db_connection, Sql.connect. cbn [Sql.working].
      rewrite map_map. apply Forall_map. cbn.
      unfold Script.statuses_known in K'. rewrite Forall_forall in *.
      intros r I. unfold Sql.select_tasks_by_user in I.
      apply filter_In in I as [I _]. now apply K'.
  - intros l. split; [reflexivity |].
    unfold Frame.data_frame. apply length_map.
Qed.

Lemma store_statuses_known : Script.statuses_known Fixture.store.
Proof.
  unfold Script.statuses_known, Script.known_status. cbn.
  repeat (apply Forall_cons; [cbn; tauto |]). apply Forall_nil.
Qed.

Lemma statuses_stay_known_and_filters_partition_witness :
  Script.statuses_known
    (Script.run_all [Planner.Reconcile 1 Fixture.june_first] Fixture.store)
  /\ (List.length
        (Frame.filter_status "Pending"
           (Frame.coerce_due_date (fun cell => cell)
              (Frame.data_frame Frame.as_planner 1
                 (Script.run_all [Planner.Reconcile 1 Fixture.june_first]
                    Fixture.store))))
      + List.length
          (Frame.filter_status "Completed"
             (Frame.coerce_due_date (fun cell => cell)
                (Frame.data_frame Frame.as_planner 1
                   (Script.run_all [Planner.Reconcile 1 Fixture.june_first]
                      Fixture.store))))
      + List.length
          (Frame.filter_status "Overdue"
             (Frame.coerce_due_date (fun cell => cell)
                (Frame.data_frame Frame.as_planner 1
                   (Script.run_all [Planner.Reconcile 1 Fixture.june_first]
                      Fixture.store)))))%nat
     = 3%nat.
Proof.
  destruct (statuses_stay_known_and_filters_partition (fun cell => cell)
              [Planner.Reconcile 1 Fixture.june_first] 1 Fixture.store
              store_statuses_known) as (K & P & _).
  split; [exact K | exact P].
Defined.

Example status_filters_on_db_py_order :
  map (fun f =>
         List.length
           (Frame.filter_status f
              (Frame.coerce_due_date (fun cell => cell)
                 (Frame.data_frame Frame.as_db_py 1 Fixture.store))))
      ["Pending"; "Completed"; "Overdue"; "All"]%string
  = [0; 0; 0; 3]%nat.
Proof. reflexivity. Qed.

Lemma find_app_none {A : Type} (p : A -> bool) (l l' : list A) :
  find p l = None -> find p (l ++ l') = find p l'.
Proof.
  induction l as [| a l IH]; cbn; [reflexivity |].
  destruct (p a); [discriminate | exact IH].
Qed.

(** X8: adding a task and then reconciling.  For dates that
    [datetime.date] can hold, the task that user [u] adds with due date
    [due] is found under a fresh id, and after [u]'s reconciliation at
    [today] it is Overdue when [due] is a day before [today] and Pending
    otherwise; a reconciliation run for another user leaves it Pending. *)
Theorem added_task_is_overdue_iff_due_before_today :
  forall (d : Sql.db) (u v : Z) (text : string) (due today : Date.date)
         (priority : string),
    Date.valid due = true -> Date.valid today = true ->
    exists i : Z,
      ~ In i (map Tasks.id (Sql.tasks d))
      /\ Sql.find_task i (Planner.add_task u text due priority d)
         = Some (Tasks.mk i u text (Some (Date.isoformat due)) priority
                          "Pending")
      /\ Sql.find_task i
           (Planner.update_overdue_tasks u today
              (Planner.add_task u text due priority d))
         = Some (Tasks.mk i u text (Some (Date.isoformat due)) priority
                   (if Date.ltb due today then "Overdue" else "Pending"))
      /\ (v <> u ->
          Sql.find_task i
            (Planner.update_overdue_tasks v today
               (Planner.add_task u text due priority d))
          = Some (Tasks.mk i u text (Some (Date.isoformat due)) priority
                           "Pending")).
Proof.
  intros d u v text due today priority Vd Vt.
  set (i := Sql.next_rowid (map Tasks.id (Sql.tasks d)) (Sql.tasks_seq d)).
  set (row := Tasks.mk i u text (Some (Date.isoformat due)) priority "Pending").
  assert (Fresh : ~ In i (map Tasks.id (Sql.tasks d)))
    by apply next_rowid_fresh.
  assert (F : Sql.find_task i (Planner.add_task u text due priority d)
              = Some row).
  { rewrite add_task_unfold. unfold Sql.find_task, Sql.insert_task.
    cbn [Sql.tasks]. fold i. fold row.
    rewrite find_app_none by now apply find_absent_key.
    cbn. now rewrite Z.eqb_refl. }
  exists i. split; [exact Fresh |]. split; [exact F |].
  rewrite !update_overdue_tasks_unfold, !find_task_update_overdue, F.
  cbn [option_map]. unfold Sql.set_overdue, Sql.overdue_where, row.
  cbn [Tasks.user_id Tasks.status Tasks.due_date Sql.lt_text String.eqb
       Ascii.eqb Bool.eqb].
  rewrite (isoformat_ltb due today Vd Vt). split.
  - rewrite Z.eqb_refl. cbn. now destruct (Date.ltb due today).
  - intros N. rewrite (proj2 (Z.eqb_neq u v)) by congruence. reflexivity.
Qed.

Lemma added_task_is_overdue_iff_due_before_today_witness :
  exists i : Z,
    Sql.find_task i
      (Planner.update_overdue_tasks 1 Fixture.june_first
         (Planner.add_task 1 "Essay" (Date.mk 2024 5 31) "High"
            Fixture.store))
    = Some (Tasks.mk i 1 "Essay" (Some "2024-05-31"%string) "High" "Overdue").
Proof.
  destruct (added_task_is_overdue_iff_due_before_today Fixture.store 1 2
              "Essay" (Date.mk 2024 5 31) Fixture.june_first "High"
              eq_refl eq_refl) as (i & _ & _ & E & _).
  exists i. exact E.
Defined.

(** ** More on the credential store *)

Section MoreCredentials.
Context `{Bcrypt}.

Lemma register_user_on_cases (sch : Sql.users_schema)
    (username email password salt : string) (d : Sql.db) :
  Script.register_user_on sch username email password salt d
  = if existsb (fun r => String.eqb (Users.email r) email) (Sql.users d)
    then (Returned false, d)
    else if Sql.unique_username sch
            && existsb (fun r => String.eqb (Users.username r) username)
                       (Sql.users d)
    then (IntegrityError, d)
    else (Returned true,
          Sql.append_user username email (hashpw password salt) d).
Proof.
  unfold Script.register_user_on, Planner.get_db_connection, Sql.connect,
    Sql.select_users_by_email, Sql.try_execute, Sql.insert_user.
  cbn [Sql.working Sql.committed Sql.close Sql.commit].
  rewrite fetchone_filter_find.
  destruct (find _ (Sql.users d)) as [r |] eqn:F.
  - apply find_some in F.
    replace (existsb _ (Sql.users d)) with true; [reflexivity |].
    symmetry. apply existsb_exists. eauto.
  - apply find_none_existsb in F. rewrite F, andb_false_r. cbn [orb].
    now destruct (_ && _).
Qed.

(** X9: [register_user] of [auth.py] refuses a registration exactly when the
    email or the username is already stored, and then writes nothing;
    otherwise it returns True and appends one row with a fresh id, the
    given username and email and the bcrypt hash of the password. *)
Theorem auth_register_user_rejects_any_collision :
  forall (username email password salt : string) (d : Sql.db),
    (fst (Auth.register_user username email password salt d) = false <->
     exists r, In r (Sql.users d) /\
               (Users.email r = email \/ Users.username r = username))
    /\ (fst (Auth.register_user username email password salt d) = false ->
        snd (Auth.register_user username email password salt d) = d)
    /\ (fst (Auth.register_user username email password salt d) = true ->
        exists i, ~ In i (map Users.id (Sql.users d)) /\
          Sql.users (snd (Auth.register_user username email password salt d))
          = Sql.users d ++ [Users.mk i username email (hashpw password salt)]).
Proof.
  intros username email password salt d.
  rewrite auth_register_user_cases.
  destruct (existsb (fun r => String.eqb (Users.email r) email) _) eqn:E1;
    cbn [orb].
  { apply existsb_email in E1 as (r & I & E). cbn [fst snd].
    split; [| split; [reflexivity | discriminate]].
    split; [| reflexivity]. intros _. exists r. auto. }
  destruct (existsb (fun r => String.eqb (Users.username r) username) _)
    eqn:E2; cbn [fst snd].
  { apply existsb_username in E2 as (r & I & E).
    split; [| split; [reflexivity | discriminate]].
    split; [| reflexivity]. intros _. exists r. auto. }
  split; [| split; [discriminate |]].
  - split; [discriminate |]. intros (r & I & [E | E]); exfalso.
    + assert (X : existsb (fun r => String.eqb (Users.email r) email)
                    (Sql.users d) = true) by (apply existsb_email; eauto).
      congruence.
    + assert (X : existsb (fun r => String.eqb (Users.username r) username)
                    (Sql.users d) = true) by (apply existsb_username; eauto).
      congruence.
  - intros _. eexists. split; [apply next_rowid_fresh | reflexivity].
Qed.

(** X10: the two copies of [register_user] return the same answer and
    leave the same store exactly when the input is not a taken username
    with a fresh email. *)
Theorem register_user_copies_agree_iff :
  forall (username email password salt : string) (d : Sql.db),
    Planner.register_user username email password salt d
    = (Returned (fst (Auth.register_user username email password salt d)),
       snd (Auth.register_user username email password salt d))
    <-> ~ ((exists r, In r (Sql.users d) /\ Users.username r = username)
           /\ forall r, In r (Sql.users d) -> Users.email r <> email).
Proof.
  intros username email password salt d.
  rewrite planner_register_user_cases, auth_register_user_cases.
  destruct (existsb (fun r => String.eqb (Users.email r) email) _) eqn:E1;
    cbn [orb fst snd].
  { apply existsb_email in E1 as (r & I & E).
    split; [| reflexivity]. intros _ [_ N]. now apply (N r I). }
  destruct (existsb (fun r => String.eqb (Users.username r) username) _)
    eqn:E2; cbn [fst snd].
  - apply existsb_username in E2. split; [discriminate |].
    intros N. exfalso. apply N. split; [exact E2 |].
    intros r I E.
    assert (X : existsb (fun r => String.eqb (Users.email r) email)
                  (Sql.users d) = true) by (apply existsb_email; eauto).
    congruence.
  - split; [| reflexivity]. intros _ [T _].
    apply existsb_username in T. congruence.
Qed.

(** X11: the INSERT of the main application's [register_user] is not
    guarded by a [try].  On a file whose [users] table was declared with
    constraints [sch], the call raises IntegrityError exactly when [sch] has
    UNIQUE(username), the username is taken and the email is fresh: never
    on a table that the application declared itself, and on one declared by
    [db.py] for every username-only collision.  The store is unchanged when
    it raises. *)
Theorem register_user_raises_iff_username_only_collision :
  forall (sch : Sql.users_schema) (username email password salt : string)
         (d : Sql.db),
    (fst (Script.register_user_on sch username email password salt d)
     = IntegrityError
     <-> Sql.unique_username sch = true
         /\ (exists r, In r (Sql.users d) /\ Users.username r = username)
         /\ (forall r, In r (Sql.users d) -> Users.email r <> email))
    /\ (fst (Script.register_user_on sch username email password salt d)
        = IntegrityError ->
        snd (Script.register_user_on sch username email password salt d) = d)
    /\ Script.register_user_on Planner.users_schema
         username email password salt d
       = Planner.register_user username email password salt d.
Proof.
  intros sch username email password salt d.
  split; [| split; [| reflexivity]].
  - rewrite register_user_on_cases.
    destruct (existsb (fun r => String.eqb (Users.email r) email) _) eqn:E1.
    { apply existsb_email in E1 as (r & I & E). cbn [fst].
      split; [discriminate |]. intros (_ & _ & N). now destruct (N r I). }
    assert (Fresh : forall r, In r (Sql.users d) -> Users.email r <> email).
    { intros r I E.
      assert (X : existsb (fun r => String.eqb (Users.email r) email)
                    (Sql.users d) = true) by (apply existsb_email; eauto).
      congruence. }
    destruct (Sql.unique_username sch); cbn [andb].
    + destruct (existsb (fun r => String.eqb (Users.username r) username) _)
        eqn:E2; cbn [fst].
      * apply existsb_username in E2. now split.
      * split; [discriminate |]. intros (_ & T & _).
        apply existsb_username in T. congruence.
    + cbn [fst]. split; [discriminate |]. now intros (X & _).
  - rewrite register_user_on_cases.
    destruct (existsb _ _); [discriminate |].
    destruct (_ && _); [reflexivity | discriminate].
Qed.

(** X12: registering an email a second time fails.  After a registration
    of a fresh email went through, any further registration of that email
    (whatever username and password) is refused by both copies, writes
    nothing, and the table holds exactly one row for the email. *)
Theorem second_registration_of_an_email_fails :
  forall (n1 n2 email p1 p2 s1 s2 : string) (d : Sql.db),
    (forall r, In r (Sql.users d) -> Users.email r <> email) ->
    Planner.register_user n2 email p2 s2
      (snd (Planner.register_user n1 email p1 s1 d))
    = (Returned false, snd (Planner.register_user n1 email p1 s1 d))
    /\ Auth.register_user n2 email p2 s2
         (snd (Planner.register_user n1 email p1 s1 d))
       = (false, snd (Planner.register_user n1 email p1 s1 d))
    /\ List.length
         (Sql.select_users_by_email email
            (snd (Planner.register_user n1 email p1 s1 d))) = 1%nat.
Proof.
  intros n1 n2 email p1 p2 s1 s2 d N.
  exact (register_user_same_email_twice n1 n2 email p1 p2 s1 s2 d N).
Qed.

(** X13: the UNIQUE(email) constraint is an invariant of both
    registrations: no call ever produces two rows with one email. *)
Theorem registrations_keep_emails_unique :
  forall (username email password salt : string) (d : Sql.db),
    Sql.email_unique d ->
    Sql.email_unique
      (snd (Planner.register_user username email password salt d))
    /\ Sql.email_unique
         (snd (Auth.register_user username email password salt d)).
Proof.
  intros username email password salt d U.
  now apply register_user_email_unique.
Qed.

(** X14: registration followed by login.  After a fresh email was
    registered with password [p], logging in with that email and a password
    [p'] returns the new user's (id, username, email) when [checkpw] accepts
    [p'] against the hash stored for [p], and None otherwise. *)
Theorem login_after_registration :
  forall (username email p salt p' : string) (d : Sql.db),
    (forall r, In r (Sql.users d) -> Users.email r <> email) ->
    exists i : Z,
      ~ In i (map Users.id (Sql.users d))
      /\ fst (Planner.login_user email p'
                (snd (Planner.register_user username email p salt d)))
         = (if checkpw p' (hashpw p salt)
            then Some (i, username, email) else None).
Proof.
  intros username email p salt p' d N.
  exists (Sql.next_rowid (map Users.id (Sql.users d)) (Sql.users_seq d)).
  split; [apply next_rowid_fresh |].
  rewrite planner_register_user_cases.
  destruct (existsb _ (Sql.users d)) eqn:E.
  { apply existsb_email in E as (r & I & Er). now destruct (N r I). }
  cbn [snd]. unfold Planner.login_user, Planner.get_db_connection,
    Sql.connect, Sql.select_users_by_email, Sql.append_user.
  cbn [Sql.working Sql.close Sql.committed Sql.users].
  rewrite fetchone_filter_find.
  rewrite find_app_none by now apply find_none_existsb.
  cbn. rewrite String.eqb_refl. cbn.
  now destruct (checkpw p' (hashpw p salt)).
Qed.

End MoreCredentials.

Lemma second_registration_of_an_email_fails_witness :
  Planner.register_user (H := Fixture.test_bcrypt)
    "alicia" "alice@x.com" "other" "s9" Fixture.one_user
  = (Returned false, Fixture.one_user).
Proof.
  apply (second_registration_of_an_email_fails (H := Fixture.test_bcrypt)
           "alice" "alicia" "alice@x.com" "secret1" "other" "s1" "s9"
           Sql.empty).
  cbn. tauto.
Defined.

Lemma registrations_keep_emails_unique_witness :
  Sql.email_unique
    (snd (Planner.register_user (H := Fixture.test_bcrypt)
            "bob" "bob@x.com" "hunter2" "s2" Fixture.one_user)).
Proof.
  apply (registrations_keep_emails_unique (H := Fixture.test_bcrypt)
           "bob" "bob@x.com" "hunter2" "s2" Fixture.one_user).
  exact one_user_email_unique.
Defined.

Lemma login_after_registration_witness :
  exists i : Z,
    fst (Planner.login_user (H := Fixture.test_bcrypt) "bob@x.com" "hunter2"
           (snd (Planner.register_user (H := Fixture.test_bcrypt)
                   "bob" "bob@x.com" "hunter2" "s2" Fixture.one_user)))
    = Some (i, "bob"%string, "bob@x.com"%string).
Proof.
  destruct (login_after_registration (H := Fixture.test_bcrypt)
              "bob" "bob@x.com" "hunter2" "s2" "hunter2" Fixture.one_user)
    as (i & _ & E).
  - cbn. intros r [<- | []]. discriminate.
  - exists i. exact E.
Defined.

(** ** Schema statements *)

Section SchemaFacts.

Lemma same_name_refl (c : string) : Schema.same_name c c = true.
Proof. apply String.eqb_refl. Qed.

Lemma has_column_app (c : string) (cols more : list string) :
  Schema.has_column c (cols ++ more)
  = Schema.has_column c cols || Schema.has_column c more.
Proof. apply existsb_app. Qed.

(** [try: ALTER TABLE tasks ADD COLUMN c  except: pass] on the columns. *)
Lemma try_add_column (c : string) (s : Schema.tables) :
  Schema.try_pass (Schema.alter_tasks_add_column c) s
  = match Schema.tasks_table s with
    | None => s
    | Some cols =>
        if Schema.has_column c cols then s
        else Schema.mk (Schema.users_table s) (Some (cols ++ [c]))
    end.
Proof.
  unfold Schema.try_pass, Schema.alter_tasks_add_column.
  destruct (Schema.tasks_table s) as [cols |]; [| reflexivity].
  now destruct (Schema.has_column c cols).
Qed.

Lemma try_add_column_step (c : string) (us : option Sql.users_schema)
    (cols : list string) :
  exists added : list string,
    Schema.try_pass (Schema.alter_tasks_add_column c)
      (Schema.mk us (Some cols))
    = Schema.mk us (Some (cols ++ added))
    /\ (List.length added <= 1)%nat
    /\ Schema.has_column c (cols ++ added) = true
    /\ (forall c', Schema.has_column c' cols = true ->
                   Schema.has_column c' (cols ++ added) = true).
Proof.
  rewrite try_add_column. cbn [Schema.tasks_table Schema.users_table].
  destruct (Schema.has_column c cols) eqn:E.
  - exists (@nil string). rewrite app_nil_r. repeat split; auto.
  - exists [c]. split; [reflexivity |]. split; [cbn; lia |]. split.
    + rewrite has_column_app. cbn. now rewrite same_name_refl, orb_true_r.
    + intros c' K. now rewrite has_column_app, K.
Qed.

(** The upgrade block appends the missing ones of the three columns, in
    the order of its statements, and touches nothing else. *)
Lemma upgrade_old_db_columns (us : option Sql.users_schema)
    (cols : list string) :
  exists added : list string,
    Schema.upgrade_old_db (Schema.mk us (Some cols))
    = Schema.mk us (Some (cols ++ added))
    /\ (List.length added <= 3)%nat
    /\ Schema.has_column "due_date" (cols ++ added) = true
    /\ Schema.has_column "priority" (cols ++ added) = true
    /\ Schema.has_column "status" (cols ++ added) = true.
Proof.
  unfold Schema.upgrade_old_db.
  destruct (try_add_column_step "due_date" us cols)
    as (a1 & E1 & L1 & D1 & _).
  rewrite E1.
  destruct (try_add_column_step "priority" us (cols ++ a1))
    as (a2 & E2 & L2 & P2 & K2).
  rewrite E2.
  destruct (try_add_column_step "status" us ((cols ++ a1) ++ a2))
    as (a3 & E3 & L3 & S3 & K3).
  rewrite E3.
  exists (a1 ++ a2 ++ a3). rewrite !app_assoc.
  split; [reflexivity |]. split; [rewrite !length_app; lia |].
  repeat split; auto.
Qed.

Lemma upgrade_old_db_settled (us : option Sql.users_schema)
    (cols : list string) :
  Schema.has_column "due_date" cols = true ->
  Schema.has_column "priority" cols = true ->
  Schema.has_column "status" cols = true ->
  Schema.upgrade_old_db (Schema.mk us (Some cols)) = Schema.mk us (Some cols).
Proof.
  intros D P S. unfold Schema.upgrade_old_db. rewrite !try_add_column.
  cbn [Schema.tasks_table]. rewrite D. cbn [Schema.tasks_table].
  rewrite P. cbn [Schema.tasks_table]. now rewrite S.
Qed.

Lemma upgrade_old_db_no_table (us : option Sql.users_schema) :
  Schema.upgrade_old_db (Schema.mk us None) = Schema.mk us None.
Proof. reflexivity. Qed.

End SchemaFacts.

Lemma create_tables_existing (us : option Sql.users_schema)
    (cols : list string) :
  Schema.create_tables (Schema.mk us (Some cols))
  = Schema.mk (Some (match us with
                     | Some sch => sch
                     | None => Planner.users_schema
                     end)) (Some cols).
Proof. now destruct us. Qed.

(** X15: the schema statements that open every run (the upgrade block, then
    [create_tables()]) can be repeated without effect, and from any earlier
    state of the file they leave a [tasks] table that has the columns
    [due_date], [priority] and [status], with the earlier columns kept in
    place in front of the added ones, and a [users] table that keeps its
    earlier constraints if it existed. *)
Theorem startup_is_idempotent_and_completes_tasks :
  forall s : Schema.tables,
    Schema.startup (Schema.startup s) = Schema.startup s
    /\ (exists cols : list string,
          Schema.tasks_table (Schema.startup s) = Some cols
          /\ Schema.has_column "due_date" cols = true
          /\ Schema.has_column "priority" cols = true
          /\ Schema.has_column "status" cols = true
          /\ (forall old, Schema.tasks_table s = Some old ->
                exists added, cols = old ++ added))
    /\ Schema.users_table (Schema.startup s)
       = Some (match Schema.users_table s with
               | Some sch => sch
               | None => Planner.users_schema
               end).
Proof.
  intros [us [old |]]; unfold Schema.startup.
  - destruct (upgrade_old_db_columns us old) as (added & E & _ & D & P & S).
    rewrite E, create_tables_existing.
    rewrite (upgrade_old_db_settled _ _ D P S), create_tables_existing.
    split; [reflexivity |]. split; [| reflexivity].
    exists (old ++ added). repeat split; try assumption.
    intros old' Eo. cbn in Eo. injection Eo as <-. now exists added.
  - rewrite upgrade_old_db_no_table. destruct us as [sch |].
    + split; [reflexivity |]. split; [| reflexivity].
      eexists. split; [reflexivity |]. repeat split. discriminate.
    + split; [reflexivity |]. split; [| reflexivity].
      eexists. split; [reflexivity |]. repeat split. discriminate.
Qed.

(** X16: the page labels the fetched columns by position as
    [id, user_id, task, due_date, priority, status].  After the schema
    statements the [tasks] table has its columns in exactly that order when
    the file had no [tasks] table, or had one whose columns were the first
    three or more of that list in order, and in no other case: a table in
    the layout of [db.py] (status fourth) ends with its columns in another
    order. *)
Theorem startup_column_order_matches_labels_iff :
  forall s : Schema.tables,
    Schema.tasks_table (Schema.startup s) = Some Planner.columns
    <-> Schema.tasks_table s = None
        \/ exists old : list string,
             Schema.tasks_table s = Some old
             /\ (3 <= List.length old)%nat
             /\ old = firstn (List.length old) Planner.columns.
Proof.
  intros [us [old |]]; unfold Schema.startup; cbn [Schema.tasks_table].
  - split.
    + destruct (upgrade_old_db_columns us old) as (added & E & L & _).
      rewrite E, create_tables_existing. cbn [Schema.tasks_table].
      intros Eq. injection Eq as Eq. right. exists old.
      split; [reflexivity |].
      assert (Len : (List.length old + List.length added = 6)%nat).
      { rewrite <- length_app, Eq. reflexivity. }
      split; [lia |].
      rewrite <- Eq, firstn_app, Nat.sub_diag, firstn_all. cbn.
      now rewrite app_nil_r.
    + intros [N | (old' & Eo & L & P)]; [discriminate |].
      injection Eo as <-. rewrite P. clear P.
      destruct (List.length old) as [| [| [| [| [| [| n]]]]]]; try lia;
        unfold Planner.columns; cbn [firstn]; rewrite ?firstn_nil;
        destruct us; reflexivity.
  - split; [now left | intros _]. rewrite upgrade_old_db_no_table.
    destruct us; reflexivity.
Qed.

Example startup_on_db_py_layout :
  Schema.tasks_table (Schema.startup Sample.legacy)
  = Some ["id"; "user_id"; "task"; "status"; "due_date"; "priority"]%string
  /\ Schema.users_table (Schema.startup Sample.legacy) = Some Db.users_schema.
Proof. split; reflexivity. Qed.

(** ** The script, run by run *)

Section ScriptFacts.
Context `{Bcrypt}.
Variable to_datetime : option string -> option string.
Variable to_string : list Tasks.row -> string.
Variable EMAIL : option string.
Variable EMAIL_PASSWORD : option string.
Variable smtp_send :
  option string -> option string -> Script.message -> option string.

Local Abbreviation main_app :=
  (Script.main_app to_datetime to_string EMAIL EMAIL_PASSWORD smtp_send).
Local Abbreviation run :=
  (Script.run to_datetime to_string EMAIL EMAIL_PASSWORD smtp_send).
Local Abbreviation interact :=
  (Script.interact to_datetime to_string EMAIL EMAIL_PASSWORD smtp_send).

(** The three ways a run of the main branch can end. *)
Lemma main_app_cases (today : Date.date) (f : string) (ev : Script.event)
    (u : Script.ident) (d : Sql.db) :
  Script.session (main_app today f ev u d) = Some u
  /\ ((Script.rerun (main_app today f ev u d) = false
       /\ Script.store (main_app today f ev u d)
          = Planner.update_overdue_tasks (fst (fst u)) today d)
      \/ (Script.rerun (main_app today f ev u d) = true
          /\ Script.sent (main_app today f ev u d) = None
          /\ exists text due p,
               Script.store (main_app today f ev u d)
               = Planner.add_task (fst (fst u)) text due p
                   (Planner.update_overdue_tasks (fst (fst u)) today d))
      \/ (Script.rerun (main_app today f ev u d) = true
          /\ Script.sent (main_app today f ev u d) = None
          /\ exists df pressed,
               Script.store (main_app today f ev u d)
               = Planner.display_tasks df (fst (fst u)) pressed
                   (Planner.update_overdue_tasks (fst (fst u)) today d))).
Proof.
  unfold Script.main_app.
  set (d1 := Planner.update_overdue_tasks (fst (fst u)) today d).
  assert (Other :
    let r :=
      match Planner.fetch_tasks (fst (fst u)) d1 with
      | [] => Script.mk_result (Some u) d1 false
                [Script.sidebar_success ("Welcome, " ++ snd (fst u) ++ "!");
                 Script.st_info "No tasks yet!"] None None
      | df =>
          if Script.display_reruns
               (Planner.filter_status f
                  (Planner.coerce_due_date to_datetime df))
               (Script.row_button ev)
          then Script.mk_result (Some u)
                 (Planner.display_tasks
                    (Planner.filter_status f
                       (Planner.coerce_due_date to_datetime df))
                    (fst (fst u)) (Script.row_button ev) d1)
                 true
                 [Script.sidebar_success
                    ("Welcome, " ++ snd (fst u) ++ "!")] None None
          else
            match ev with
            | Script.SendEmailButton =>
                let (msg, shown) :=
                  Script.send_tasks to_string EMAIL EMAIL_PASSWORD smtp_send
                    u (Planner.coerce_due_date to_datetime df) in
                Script.mk_result (Some u) d1 false
                  [Script.sidebar_success
                     ("Welcome, " ++ snd (fst u) ++ "!"); shown]
                  (Some (Planner.to_csv
                           (Planner.coerce_due_date to_datetime df)))
                  (Some msg)
            | _ =>
                Script.mk_result (Some u) d1 false
                  [Script.sidebar_success
                     ("Welcome, " ++ snd (fst u) ++ "!")]
                  (Some (Planner.to_csv
                           (Planner.coerce_due_date to_datetime df)))
                  None
            end
      end in
    Script.session r = Some u
    /\ ((Script.rerun r = false /\ Script.store r = d1)
        \/ (Script.rerun r = true /\ Script.sent r = None
            /\ exists df pressed,
                 Script.store r
                 = Planner.display_tasks df (fst (fst u)) pressed d1))).
  { cbv zeta. destruct (Planner.fetch_tasks (fst (fst u)) d1) as [| r0 df0].
    - split; [reflexivity |]. now left.
    - destruct (Script.display_reruns _ _).
      + split; [reflexivity |]. right. cbn. repeat split. eauto.
      + destruct ev; try (split; [reflexivity |]; now left).
        destruct (Script.send_tasks _ _ _ _ _ _) as [msg shown].
        split; [reflexivity |]. now left. }
  cbv zeta in Other.
  destruct ev;
    try (destruct Other as [S [N | R]];
         [split; [exact S |]; tauto .. ]).
  split; [reflexivity |]. right; left. cbn. repeat split. eauto.
Qed.

Lemma main_app_idle (today : Date.date) (f : string) (u : Script.ident)
    (d : Sql.db) :
  Script.session (main_app today f Script.Idle u d) = Some u
  /\ Script.rerun (main_app today f Script.Idle u d) = false
  /\ Script.sent (main_app today f Script.Idle u d) = None
  /\ Script.store (main_app today f Script.Idle u d)
     = Planner.update_overdue_tasks (fst (fst u)) today d.
Proof.
  unfold Script.main_app. cbn [Script.row_button].
  destruct (Planner.fetch_tasks _ _) as [| r df]; [now repeat split |].
  rewrite display_reruns_none. now repeat split.
Qed.

(** The login and register branch: what it can do to the session and the
    store. *)
Lemma login_register_cases (ev : Script.event) (d : Sql.db) :
  Sql.tasks (Script.store (Script.login_register ev d)) = Sql.tasks d
  /\ Sql.tasks_seq (Script.store (Script.login_register ev d))
     = Sql.tasks_seq d
  /\ Script.download (Script.login_register ev d) = None
  /\ Script.sent (Script.login_register ev d) = None
  /\ ((Script.session (Script.login_register ev d) = None
       /\ Script.rerun (Script.login_register ev d) = false)
      \/ (exists r, In r (Sql.users d)
            /\ Script.session (Script.login_register ev d)
               = Some (Users.id r, Users.username r, Users.email r)
            /\ Script.rerun (Script.login_register ev d) = true
            /\ Script.store (Script.login_register ev d) = d)).
Proof.
  destruct ev as [| n e p s | e p | | |]; cbn [Script.login_register];
    try (repeat split; now left).
  - rewrite planner_register_user_cases.
    destruct (existsb _ _); cbn; repeat split; now left.
  - unfold Planner.login_user, Planner.get_db_connection, Sql.connect.
    cbn [Sql.working Sql.close Sql.committed].
    unfold Sql.select_users_by_email. rewrite fetchone_filter_find.
    destruct (find _ (Sql.users d)) as [r |] eqn:F;
      [| cbn; repeat split; now left].
    apply find_some in F as [I _].
    destruct (checkpw p (Users.password r)); cbn; repeat split;
      [right; exists r; now repeat split | now left].
Qed.

(** Reconciliation leaves no Pending row of the user that is due before
    the day it ran. *)
Lemma update_overdue_tasks_reconciled (u : Z) (today : Date.date)
    (d : Sql.db) (i : Z) (t : Tasks.row) :
  Sql.find_task i (Planner.update_overdue_tasks u today d) = Some t ->
  Tasks.user_id t = u -> Tasks.status t = "Pending"%string ->
  ~ Sql.due_before t (Date.isoformat today).
Proof.
  rewrite update_overdue_tasks_unfold, find_task_update_overdue.
  destruct (Sql.find_task i d) as [t0 |]; [| discriminate].
  cbn [option_map]. unfold Sql.set_overdue.
  destruct (Sql.selected _) eqn:S.
  - intros E. injection E as <-. discriminate.
  - intros E. injection E as <-. intros Eu Es D.
    assert (X : Sql.selected
                  (Sql.overdue_where u (Date.isoformat today) t0) = true)
      by now apply overdue_where_selected.
    congruence.
Qed.

(** Reconciliation for [u] does not reach the rows of other users. *)
Lemma update_overdue_tasks_frame (u : Z) (today : Date.date) (d : Sql.db)
    (i : Z) (t : Tasks.row) :
  Sql.find_task i d = Some t -> Tasks.user_id t <> u ->
  Sql.find_task i (Planner.update_overdue_tasks u today d) = Some t.
Proof.
  intros F N. rewrite update_overdue_tasks_unfold, find_task_update_overdue, F.
  cbn [option_map]. unfold Sql.set_overdue.
  destruct (Sql.selected _) eqn:S; [| reflexivity].
  apply overdue_where_selected in S as (E & _). contradiction.
Qed.

Lemma update_overdue_tasks_primary_key (u : Z) (today : Date.date)
    (d : Sql.db) :
  Sql.primary_key d -> Sql.primary_key (Planner.update_overdue_tasks u today d).
Proof. apply (run_primary_key (Planner.Reconcile u today)). Qed.

Lemma update_overdue_tasks_users (u : Z) (today : Date.date) (d : Sql.db) :
  Sql.users (Planner.update_overdue_tasks u today d) = Sql.users d.
Proof. reflexivity. Qed.

(** The main branch never reaches the rows of other users. *)
Lemma main_app_frame (today : Date.date) (f : string) (ev : Script.event)
    (u : Script.ident) (d : Sql.db) (i : Z) (t : Tasks.row) :
  Sql.primary_key d -> Sql.find_task i d = Some t ->
  Tasks.user_id t <> fst (fst u) ->
  Sql.find_task i (Script.store (main_app today f ev u d)) = Some t
  /\ Sql.primary_key (Script.store (main_app today f ev u d)).
Proof.
  intros PK F N.
  pose proof (update_overdue_tasks_frame _ today d i t F N) as F1.
  pose proof (update_overdue_tasks_primary_key (fst (fst u)) today d PK) as PK1.
  destruct (main_app_cases today f ev u d)
    as [_ [[_ E] | [(_ & _ & text & due & p & E)
                   | (_ & _ & df & pressed & E)]]]; rewrite E.
  - now split.
  - split.
    + rewrite add_task_unfold. unfold Sql.find_task, Sql.insert_task.
      cbn [Sql.tasks]. now apply find_app_some.
    + apply (run_primary_key (Planner.AddTask (fst (fst u)) text due p)).
      exact PK1.
  - split.
    + now apply display_tasks_frame.
    + apply (run_primary_key (Planner.Display df (fst (fst u)) pressed)).
      exact PK1.
Qed.

Lemma main_app_users (today : Date.date) (f : string) (ev : Script.event)
    (u : Script.ident) (d : Sql.db) :
  Sql.users (Script.store (main_app today f ev u d)) = Sql.users d.
Proof.
  destruct (main_app_cases today f ev u d)
    as [_ [[_ E] | [(_ & _ & text & due & p & E)
                   | (_ & _ & df & pressed & E)]]]; rewrite E.
  - reflexivity.
  - reflexivity.
  - destruct (display_tasks_cases df (fst (fst u)) pressed
                (Planner.update_overdue_tasks (fst (fst u)) today d))
      as [E' | [(r & _ & _ & _ & E') | (r & _ & _ & E')]]; now rewrite E'.
Qed.

(** X17: the session names a registered user, and there is no way out of
    it.  If the session is empty or holds the identity of a stored user,
    the same is true after any interaction; once a user is logged in, every
    interaction keeps exactly that identity in the session (no logout, no
    switch, whatever is clicked) and leaves the [users] table as it was. *)
Theorem session_stays_valid :
  forall (today today' : Date.date) (f : string) (ev : Script.event)
         (user : option Script.ident) (d : Sql.db),
    Script.session_valid user d ->
    Script.session_valid
      (Script.session (interact today today' f ev user d))
      (Script.store (interact today today' f ev user d))
    /\ (forall u, user = Some u ->
          Script.session (interact today today' f ev user d) = Some u
          /\ Sql.users (Script.store (interact today today' f ev user d))
             = Sql.users d).
Proof.
  intros today today' f ev user d V. unfold Script.interact.
  destruct user as [u |]; cbn [Script.run].
  - pose proof (proj1 (main_app_cases today f ev u d)) as S1.
    pose proof (main_app_users today f ev u d) as U1.
    pose proof (proj1 (main_app_cases today' f Script.Idle u
                         (Script.store (main_app today f ev u d)))) as S2.
    pose proof (main_app_users today' f Script.Idle u
                  (Script.store (main_app today f ev u d))) as U2.
    rewrite U1 in U2.
    destruct (Script.rerun (main_app today f ev u d)).
    + rewrite S1. cbn [Script.run]. rewrite S2, U2.
      split; [unfold Script.session_valid in *; now rewrite U2 |].
      intros u' E. injection E as <-. now split.
    + rewrite S1, U1.
      split; [unfold Script.session_valid in *; now rewrite U1 |].
      intros u' E. injection E as <-. now split.
  - split; [| discriminate].
    destruct (login_register_cases ev d)
      as (_ & _ & _ & _ & [[S R] | (r & I & S & R & E)]).
    + rewrite R, S. exact I.
    + rewrite R, S, E. cbn [Script.run].
      pose proof (main_app_cases today' f Script.Idle
                    (Users.id r, Users.username r, Users.email r) d)
        as [S' _].
      rewrite S'. unfold Script.session_valid. rewrite main_app_users.
      now exists r.
Qed.

(** X18: nobody's tasks but the session user's are within reach.  A task
    whose owner is not the user that the session holds after the
    interaction (or any task, when nobody is logged in by then) is found
    unchanged under its id, whatever was clicked or submitted. *)
Theorem interactions_leave_other_users_tasks :
  forall (today today' : Date.date) (f : string) (ev : Script.event)
         (user : option Script.ident) (d : Sql.db) (i : Z) (t : Tasks.row),
    Sql.primary_key d ->
    Sql.find_task i d = Some t ->
    (forall u, Script.session (interact today today' f ev user d) = Some u ->
               Tasks.user_id t <> fst (fst u)) ->
    Sql.find_task i (Script.store (interact today today' f ev user d))
    = Some t.
Proof.
  intros today today' f ev user d i t PK F. unfold Script.interact.
  destruct user as [u |]; cbn [Script.run].
  - pose proof (proj1 (main_app_cases today f ev u d)) as S1.
    destruct (Script.rerun (main_app today f ev u d)).
    + rewrite S1. cbn [Script.run]. intros N.
      rewrite (proj1 (main_app_cases _ _ _ _ _)) in N.
      specialize (N u eq_refl).
      destruct (main_app_frame today f ev u d i t PK F N) as [F1 PK1].
      now apply main_app_frame.
    + intros N. rewrite S1 in N. specialize (N u eq_refl).
      now apply main_app_frame.
  - destruct (login_register_cases ev d)
      as (T & _ & _ & _ & [[S R] | (r & I & S & R & E)]).
    + rewrite R. intros _. unfold Sql.find_task. rewrite T. exact F.
    + rewrite R, S, E. cbn [Script.run]. intros N.
      rewrite (proj1 (main_app_cases _ _ _ _ _)) in N.
      specialize (N _ eq_refl).
      now apply main_app_frame.
Qed.

(** X19: what the page shows is reconciled.  When an interaction ends with
    a user logged in, no task of that user is left Pending with a due date
    before the day of the last run: the reconciler ran at the start of that
    run and nothing was written after it. *)
Theorem interactions_end_reconciled :
  forall (today today' : Date.date) (f : string) (ev : Script.event)
         (user : option Script.ident) (d : Sql.db) (u : Script.ident)
         (i : Z) (t : Tasks.row),
    Script.session (interact today today' f ev user d) = Some u ->
    Sql.find_task i (Script.store (interact today today' f ev user d))
    = Some t ->
    Tasks.user_id t = fst (fst u) ->
    Tasks.status t = "Pending"%string ->
    ~ Sql.due_before t
        (Date.isoformat
           (if Script.rerun (run today f ev user d) then today' else today)).
Proof.
  intros today today' f ev user d u i t. unfold Script.interact.
  destruct user as [u0 |]; cbn [Script.run].
  - pose proof (main_app_cases today f ev u0 d) as [S1 C].
    destruct (Script.rerun (main_app today f ev u0 d)) eqn:R.
    + rewrite S1. cbn [Script.run].
      destruct (main_app_idle today' f u0
                  (Script.store (main_app today f ev u0 d)))
        as (S2 & _ & _ & E2).
      rewrite S2, E2. intros Eu. injection Eu as <-.
      apply update_overdue_tasks_reconciled.
    + destruct C as [[_ E] | [(X & _) | (X & _)]]; try discriminate.
      rewrite S1, E. intros Eu. injection Eu as <-.
      apply update_overdue_tasks_reconciled.
  - destruct (login_register_cases ev d)
      as (_ & _ & _ & _ & [[S R] | (r & I & S & R & E)]).
    + rewrite R, S. discriminate.
    + rewrite R, S, E. cbn [Script.run].
      destruct (main_app_idle today' f
                  (Users.id r, Users.username r, Users.email r) d)
        as (S2 & _ & _ & E2).
      rewrite S2, E2. intros Eu. injection Eu as <-.
      apply update_overdue_tasks_reconciled.
Qed.

(** X20: mail goes to the logged-in user only.  A run hands a message to
    the SMTP transport only when a logged-in user clicked the send button
    and has at least one task; the message is addressed to that user's own
    registered email, sent from the configured account, and its body is the
    full task list of the user after reconciliation, whatever status filter
    is selected; the run writes nothing besides the reconciliation and
    does not rerun. *)
Theorem mail_goes_to_the_logged_in_user :
  forall (today : Date.date) (f : string) (ev : Script.event)
         (user : option Script.ident) (d : Sql.db) (m : Script.message),
    Script.session_valid user d ->
    Script.sent (run today f ev user d) = Some m ->
    exists r : Users.row,
      In r (Sql.users d)
      /\ user = Some (Users.id r, Users.username r, Users.email r)
      /\ ev = Script.SendEmailButton
      /\ Script.to m = Users.email r
      /\ Script.from m = EMAIL
      /\ Script.subject m = "Your Study Tasks"%string
      /\ Script.body m
         = to_string
             (Planner.coerce_due_date to_datetime
                (Planner.fetch_tasks (Users.id r)
                   (Planner.update_overdue_tasks (Users.id r) today d)))
      /\ Planner.fetch_tasks (Users.id r)
           (Planner.update_overdue_tasks (Users.id r) today d) <> []
      /\ Script.store (run today f ev user d)
         = Planner.update_overdue_tasks (Users.id r) today d
      /\ Script.rerun (run today f ev user d) = false.
Proof.
  intros today f ev user d m V.
  destruct user as [u |]; cbn [Script.run].
  - destruct V as (r & I & ->). cbn [fst snd]. unfold Script.main_app.
    cbn [fst snd].
    destruct ev;
      try (destruct (Planner.fetch_tasks _ _);
           [| destruct (Script.display_reruns _ _)];
           intros E; cbn in E; discriminate E).
    { intros E. cbn in E. discriminate E. }
    destruct (Planner.fetch_tasks _ _) as [| r0 df] eqn:F;
      [intros E; cbn in E; discriminate E |].
    cbn [Script.row_button]. rewrite display_reruns_none.
    unfold Script.send_tasks. cbn [snd].
    destruct (smtp_send _ _ _); cbn [Script.sent Script.store Script.rerun];
      intros E; injection E as <-; exists r; rewrite F;
      cbn [Script.to Script.from Script.subject Script.body];
      repeat split; try assumption; discriminate.
  - destruct (login_register_cases ev d) as (_ & _ & _ & S & _).
    rewrite S. discriminate.
Qed.

(** X21: a failed login tells nothing.  When every stored user with the
    given email fails the password check (in particular when there is no
    such user), the interaction ends with one and the same outcome: nobody
    logged in, the store untouched, the single error "Invalid login.". *)
Theorem failed_logins_look_alike :
  forall (today today' : Date.date) (f email password : string) (d : Sql.db),
    (forall r, In r (Sql.users d) -> Users.email r = email ->
               checkpw password (Users.password r) = false) ->
    interact today today' f (Script.LoginButton email password) None d
    = Script.mk_result None d false [Script.st_error "Invalid login."]
        None None.
Proof.
  intros today today' f email password d A.
  unfold Script.interact. cbn [Script.run Script.login_register].
  unfold Planner.login_user, Planner.get_db_connection, Sql.connect,
    Sql.select_users_by_email.
  cbn [Sql.working Sql.close Sql.committed].
  rewrite fetchone_filter_find.
  destruct (find _ (Sql.users d)) as [r |] eqn:F; [| reflexivity].
  apply find_some in F as [I E]. apply String.eqb_eq in E.
  now rewrite (A r I E).
Qed.

(** X22: a successful login opens the reconciled page.  With unique emails,
    logging in with the email of a stored user and a password that verifies
    puts that user's (id, username, email) in the session and, through the
    rerun, leaves the store as that user's reconciliation leaves it. *)
Theorem successful_login_opens_reconciled_page :
  forall (today today' : Date.date) (f email password : string) (d : Sql.db)
         (r : Users.row),
    Sql.email_unique d -> In r (Sql.users d) -> Users.email r = email ->
    checkpw password (Users.password r) = true ->
    Script.session
      (interact today today' f (Script.LoginButton email password) None d)
    = Some (Users.id r, Users.username r, Users.email r)
    /\ Script.store
         (interact today today' f (Script.LoginButton email password) None d)
       = Planner.update_overdue_tasks (Users.id r) today' d
    /\ Script.rerun
         (interact today today' f (Script.LoginButton email password) None d)
       = false.
Proof.
  intros today today' f email password d r U I E C.
  unfold Script.interact. cbn [Script.run Script.login_register].
  unfold Planner.login_user, Planner.get_db_connection, Sql.connect.
  cbn [Sql.working Sql.close Sql.committed].
  rewrite (proj2 (fetchone_by_email email d r U) (conj I E)), C.
  cbn [Script.rerun Script.session Script.store Script.run].
  destruct (main_app_idle today' f
              (Users.id r, Users.username r, Users.email r) d)
    as (S & R & _ & St).
  now rewrite S, R, St.
Qed.

(** X23: the registration form, on a [users] table declared with the
    constraints [sch].  It never logs the visitor in and never reruns.
    When the email is taken it answers "User already exists." and writes
    nothing.  When the email is fresh it stores exactly one new row (a
    fresh id, the given username and email, the bcrypt hash) and answers
    with the success message, also when the username is taken, unless the
    table carries UNIQUE(username), as one declared by [db.py] does: then
    a taken username ends the run in the uncaught IntegrityError and
    nothing is written.  On a table that the application declared itself,
    which is the page of [Script.interact], no run ends that way. *)
Theorem registration_form_outcomes :
  forall (sch : Sql.users_schema) (today today' : Date.date)
         (f n e p s : string) (d : Sql.db),
    ((exists r, In r (Sql.users d) /\ Users.email r = e) ->
     Script.login_register_on sch (Script.RegisterButton n e p s) d
     = Script.mk_result None d false
         [Script.st_error "User already exists."] None None)
    /\ ((forall r, In r (Sql.users d) -> Users.email r <> e) ->
        (Sql.unique_username sch = false
         \/ forall r, In r (Sql.users d) -> Users.username r <> n) ->
        ~ In (Sql.next_rowid (map Users.id (Sql.users d)) (Sql.users_seq d))
             (map Users.id (Sql.users d))
        /\ Script.login_register_on sch (Script.RegisterButton n e p s) d
           = Script.mk_result None
               (Sql.mk_db
                  (Sql.users d
                   ++ [Users.mk
                         (Sql.next_rowid (map Users.id (Sql.users d))
                            (Sql.users_seq d))
                         n e (hashpw p s)])
                  (Sql.next_rowid (map Users.id (Sql.users d))
                     (Sql.users_seq d))
                  (Sql.tasks d) (Sql.tasks_seq d))
               false
               [Script.st_success "Registered successfully! Please log in."]
               None None)
    /\ ((forall r, In r (Sql.users d) -> Users.email r <> e) ->
        Sql.unique_username sch = true ->
        (exists r, In r (Sql.users d) /\ Users.username r = n) ->
        Script.login_register_on sch (Script.RegisterButton n e p s) d
        = Script.mk_result None d false [Script.traceback] None None)
    /\ Script.session
         (Script.login_register_on sch (Script.RegisterButton n e p s) d)
       = None
    /\ Script.rerun
         (Script.login_register_on sch (Script.RegisterButton n e p s) d)
       = false
    /\ interact today today' f (Script.RegisterButton n e p s) None d
       = Script.login_register_on Planner.users_schema
           (Script.RegisterButton n e p s) d
    /\ (Sql.unique_username sch = false ->
        ~ In Script.traceback
             (Script.notices
                (Script.login_register_on sch
                   (Script.RegisterButton n e p s) d))).
Proof.
  intros sch today today' f n e p s d.
  assert (Own : interact today today' f (Script.RegisterButton n e p s)
                  None d
                = Script.login_register_on Planner.users_schema
                    (Script.RegisterButton n e p s) d).
  { unfold Script.interact. cbn [Script.run Script.login_register].
    cbn [Script.login_register_on].
    change (Script.register_user_on Planner.users_schema n e p s d)
      with (Planner.register_user n e p s d).
    rewrite planner_register_user_cases.
    now destruct (existsb _ _). }
  refine (conj _ (conj _ (conj _ (conj _ (conj _ (conj Own _)))))).
  all: cbn [Script.login_register_on]; rewrite register_user_on_cases.
  - intros X. apply existsb_email in X. now rewrite X.
  - intros Fresh Free. split; [apply next_rowid_fresh |].
    replace (existsb (fun r => String.eqb (Users.email r) e) (Sql.users d))
      with false.
    + replace (Sql.unique_username sch
               && existsb (fun r => String.eqb (Users.username r) n)
                          (Sql.users d)) with false; [reflexivity |].
      symmetry. destruct Free as [U | Free]; [now rewrite U |].
      apply andb_false_iff. right.
      destruct (existsb _ _) eqn:X; [| reflexivity].
      apply existsb_username in X as (r & I & E). now destruct (Free r I).
    + symmetry. destruct (existsb _ _) eqn:X; [| reflexivity].
      apply existsb_email in X as (r & I & E). now destruct (Fresh r I).
  - intros Fresh U Taken.
    replace (existsb (fun r => String.eqb (Users.email r) e) (Sql.users d))
      with false.
    + apply existsb_username in Taken. now rewrite U, Taken.
    + symmetry. destruct (existsb _ _) eqn:X; [| reflexivity].
      apply existsb_email in X as (r & I & E). now destruct (Fresh r I).
  - destruct (existsb _ _); [reflexivity |].
    now destruct (_ && _).
  - destruct (existsb _ _); [reflexivity |].
    now destruct (_ && _).
  - intros U. rewrite U. cbn [andb].
    destruct (existsb _ _); cbn; intros [X | []]; discriminate.
Qed.

(** X24: without a login nothing happens to tasks.  A run with an empty
    session, whatever event it carries, leaves the task table and its
    sequence counter as they were, offers no CSV and sends no mail. *)
Theorem unauthenticated_runs_leave_tasks_alone :
  forall (today : Date.date) (f : string) (ev : Script.event) (d : Sql.db),
    Sql.tasks (Script.store (run today f ev None d)) = Sql.tasks d
    /\ Sql.tasks_seq (Script.store (run today f ev None d)) = Sql.tasks_seq d
    /\ Script.download (run today f ev None d) = None
    /\ Script.sent (run today f ev None d) = None.
Proof.
  intros today f ev d. cbn [Script.run].
  destruct (login_register_cases ev d) as (T & Q & D & S & _).
  now repeat split.
Qed.

End ScriptFacts.

Lemma alice_session_valid :
  Script.session_valid Sample.alice_session Fixture.store.
Proof. exists Fixture.alice. split; [now left | reflexivity]. Qed.

Lemma session_stays_valid_witness :
  Script.session
    (Script.interact (H := Fixture.test_bcrypt) (fun cell => cell)
       Sample.to_string None None Sample.smtp_ok
       Fixture.june_first Fixture.june_first "All"
       (Script.RowButton (Planner.comp 1)) Sample.alice_session Fixture.store)
  = Sample.alice_session
  /\ Sql.users
       (Script.store
          (Script.interact (H := Fixture.test_bcrypt) (fun cell => cell)
             Sample.to_string None None Sample.smtp_ok
             Fixture.june_first Fixture.june_first "All"
             (Script.RowButton (Planner.comp 1)) Sample.alice_session
             Fixture.store))
     = Sql.users Fixture.store.
Proof.
  destruct (session_stays_valid (H := Fixture.test_bcrypt) (fun cell => cell)
              Sample.to_string None None Sample.smtp_ok
              Fixture.june_first Fixture.june_first "All"
              (Script.RowButton (Planner.comp 1)) Sample.alice_session
              Fixture.store alice_session_valid) as [_ K].
  exact (K _ eq_refl).
Defined.

Lemma interactions_leave_other_users_tasks_witness :
  Sql.find_task 3
    (Script.store
       (Script.interact (H := Fixture.test_bcrypt) (fun cell => cell)
          Sample.to_string None None Sample.smtp_ok
          Fixture.june_first Fixture.june_first "All"
          (Script.RowButton (Planner.del 3)) Sample.alice_session
          Fixture.store))
  = Some Fixture.bobs_task.
Proof.
  apply (interactions_leave_other_users_tasks (H := Fixture.test_bcrypt)
           (fun cell => cell) Sample.to_string None None Sample.smtp_ok
           Fixture.june_first Fixture.june_first "All"
           (Script.RowButton (Planner.del 3)) Sample.alice_session
           Fixture.store 3 Fixture.bobs_task).
  - exact store_primary_key.
  - reflexivity.
  - intros u E. vm_compute in E. injection E as <-. discriminate.
Defined.

Lemma interactions_end_reconciled_witness :
  ~ Sql.due_before Fixture.undated (Date.isoformat Fixture.june_first).
Proof.
  apply (interactions_end_reconciled (H := Fixture.test_bcrypt)
           (fun cell => cell) Sample.to_string None None Sample.smtp_ok
           Fixture.june_first Fixture.june_first "All" Script.Idle
           Sample.alice_session Fixture.store
           (1, "alice"%string, "alice@x.com"%string) 2 Fixture.undated);
    reflexivity.
Defined.

Lemma mail_goes_to_the_logged_in_user_witness :
  exists (m : Script.message) (r : Users.row),
    Script.sent
      (Script.run (H := Fixture.test_bcrypt) (fun cell => cell)
         Sample.to_string None None Sample.smtp_ok
         Fixture.june_first "Pending" Script.SendEmailButton
         Sample.alice_session Fixture.store) = Some m
    /\ In r (Sql.users Fixture.store)
    /\ Script.to m = Users.email r
    /\ Script.to m = "alice@x.com"%string.
Proof.
  destruct (Script.sent
              (Script.run (H := Fixture.test_bcrypt) (fun cell => cell)
                 Sample.to_string None None Sample.smtp_ok
                 Fixture.june_first "Pending" Script.SendEmailButton
                 Sample.alice_session Fixture.store)) as [m |] eqn:E;
    [| vm_compute in E; discriminate E].
  destruct (mail_goes_to_the_logged_in_user (H := Fixture.test_bcrypt)
              (fun cell => cell) Sample.to_string None None Sample.smtp_ok
              Fixture.june_first "Pending" Script.SendEmailButton
              Sample.alice_session Fixture.store m alice_session_valid E)
    as (r & I & _ & _ & T & _).
  exists m, r. repeat split; try assumption.
  vm_compute in E. injection E as <-. reflexivity.
Defined.

Lemma failed_logins_look_alike_witness :
  Script.interact (H := Fixture.test_bcrypt) (fun cell => cell)
    Sample.to_string None None Sample.smtp_ok
    Fixture.june_first Fixture.june_first "All"
    (Script.LoginButton "alice@x.com" "wrong") None Fixture.one_user
  = Script.interact (H := Fixture.test_bcrypt) (fun cell => cell)
      Sample.to_string None None Sample.smtp_ok
      Fixture.june_first Fixture.june_first "All"
      (Script.LoginButton "nobody@x.com" "wrong") None Fixture.one_user.
Proof.
  rewrite !(failed_logins_look_alike (H := Fixture.test_bcrypt)
              (fun cell => cell) Sample.to_string None None Sample.smtp_ok).
  - reflexivity.
  - cbn. intros r [<- | []] E. discriminate E.
  - cbn. intros r [<- | []] _. reflexivity.
Defined.

Lemma successful_login_opens_reconciled_page_witness :
  Script.session
    (Script.interact (H := Fixture.test_bcrypt) (fun cell => cell)
       Sample.to_string None None Sample.smtp_ok
       Fixture.june_first Fixture.june_first "All"
       (Script.LoginButton "alice@x.com" "secret1") None Fixture.one_user)
  = Some (1, "alice"%string, "alice@x.com"%string).
Proof.
  apply (successful_login_opens_reconciled_page (H := Fixture.test_bcrypt)
           (fun cell => cell) Sample.to_string None None Sample.smtp_ok
           Fixture.june_first Fixture.june_first "All" "alice@x.com"
           "secret1" Fixture.one_user Fixture.alice).
  - exact one_user_email_unique.
  - now left.
  - reflexivity.
  - reflexivity.
Defined.

(** ** The script on the fixtures *)

Example script_delete_then_rerun :
  let r := Script.interact (H := Fixture.test_bcrypt) (fun cell => cell)
             Sample.to_string None None Sample.smtp_ok
             Fixture.june_first Fixture.june_first "Completed"
             (Script.RowButton (Planner.del 4)) Sample.alice_session
             Fixture.store in
  map Tasks.id (Sql.tasks (Script.store r)) = [1; 2; 3]
  /\ option_map Tasks.status (Sql.find_task 1 (Script.store r))
     = Some "Overdue"%string
  /\ Script.rerun r = false.
Proof. repeat split. Qed.

Example script_send_mail :
  Script.sent
    (Script.run (H := Fixture.test_bcrypt) (fun cell => cell)
       Sample.to_string None None Sample.smtp_ok
       Fixture.june_first "Completed" Script.SendEmailButton
       Sample.alice_session Fixture.store)
  = Some (Script.mk_message "Your Study Tasks" None "alice@x.com"
            "Read chapter 1; Someday; Old homework").
Proof. reflexivity. Qed.

Example registration_on_db_py_users_table :
  Script.login_register_on (H := Fixture.test_bcrypt) Db.users_schema
    (Script.RegisterButton "alice" "alice2@x.com" "secret2" "s2")
    Fixture.one_user
  = Script.mk_result None Fixture.one_user false [Script.traceback] None None
  /\ Script.notices
       (Script.login_register_on (H := Fixture.test_bcrypt)
          Planner.users_schema
          (Script.RegisterButton "alice" "alice2@x.com" "secret2" "s2")
          Fixture.one_user)
     = [Script.st_success "Registered successfully! Please log in."].
Proof. split; reflexivity. Qed.
